(** * PennApps eco prompt optimizer: server/index.js and OptimizeTab.jsx

    A shallow embedding of the Express server (signup, login, me, logout,
    optimize, stats) over an explicit model of the two SQLite tables, and of
    the token estimator shared by the server and the React client.

    Modelling conventions.
    - A JavaScript string is the list of its UTF-16 code units ([jsstring]).
    - A JavaScript number is an exact rational ([Q]); the rounding of IEEE
      doubles is not modelled.  The result of [parseFloat] on the environment
      variable, NaN or a finite number, has its own type [jsnum]; the
      infinities JSON.parse returns for counts beyond the range of doubles,
      and the NaN their arithmetic gives, are in [number].
    - The store is a pair of row lists with their AUTOINCREMENT counters.
    - bcrypt and jsonwebtoken are an interface ([Platform]).
    - The handlers that take a body come twice.  [signup], [login] and
      [optimize] are the handlers on the bodies the client of this repository
      sends: credentials that are strings of well-formed UTF-16 and counts
      that are finite; there the [catch] branches that answer 500 are not
      reached, and the transition system [handle] runs on them.
      [signup_full], [login_full] and [optimize_outcome_of] are the handlers
      on bodies of every shape, with the 500 answers and with emails as
      SQLite is handed them.  Where both apply they agree
      ([signup_full_agrees], [login_full_agrees], [outcome_of_typed_request]). *)

From Stdlib Require Import ZArith QArith Qminmax Qround Lqa List Bool Lia.
From Stdlib Require Import Strings.String Strings.Ascii.
Import ListNotations.

Set Implicit Arguments.

(** ** JavaScript strings *)

Module JS.

Definition code_unit := N.
Definition jsstring := list code_unit.

(** The code units matched by the regular expression class [\s], which are
    also the ones removed by [String.prototype.trim]. *)
Definition is_ws (c : code_unit) : bool :=
  ((9 <=? c) && (c <=? 13) || (c =? 32) || (c =? 160) || (c =? 5760)
   || (8192 <=? c) && (c <=? 8202) || (c =? 8232) || (c =? 8233)
   || (c =? 8239) || (c =? 8287) || (c =? 12288) || (c =? 65279))%N.

Definition SPACE : code_unit := 32%N.

(** ASCII literals, for writing examples. *)
Fixpoint lit (s : string) : jsstring :=
  match s with
  | EmptyString => []
  | String a r => N_of_ascii a :: lit r
  end.

Fixpoint jsstring_eqb (a b : jsstring) : bool :=
  match a, b with
  | [], [] => true
  | x :: a', y :: b' => N.eqb x y && jsstring_eqb a' b'
  | _, _ => false
  end.

(** [!text] for a string: only the empty string is falsy. *)
Definition falsy_str (s : jsstring) : bool :=
  match s with [] => true | _ => false end.

(** [text.replace(/\s+/g, ' ')]: every maximal run of white space becomes
    one space.  [in_run] tells that the previous unit was white space, whose
    run has already produced its space. *)
Fixpoint replace_ws_from (in_run : bool) (s : jsstring) : jsstring :=
  match s with
  | [] => []
  | c :: r =>
      if is_ws c
      then (if in_run then replace_ws_from true r
            else SPACE :: replace_ws_from true r)
      else c :: replace_ws_from false r
  end.

Definition replace_ws (s : jsstring) : jsstring := replace_ws_from false s.

Fixpoint trimStart (s : jsstring) : jsstring :=
  match s with
  | [] => []
  | c :: r => if is_ws c then trimStart r else s
  end.

Definition trimEnd (s : jsstring) : jsstring := rev (trimStart (rev s)).

Definition trim (s : jsstring) : jsstring := trimEnd (trimStart s).

End JS.
Import JS.

(** ** The token estimator (server/index.js and OptimizeTab.jsx) *)

(** [text.replace(/\s+/g, ' ').trim()] *)
Definition normalize (text : jsstring) : jsstring := trim (replace_ws text).

(** [Math.ceil(n / 4)] for a length [n]. *)
Definition ceil_quarter (n : nat) : Z :=
  Qceiling (inject_Z (Z.of_nat n) / 4).

Definition estimateTokens (text : jsstring) : Z :=
  if falsy_str text then 0
  else
    let trimmed := normalize text in
    if Nat.eqb (List.length trimmed) 0 then 0
    else Z.max 1 (ceil_quarter (List.length trimmed)).

(** The spec's words for the normal form: the words of the text (its maximal
    runs of units that are not white space) joined by single spaces. *)
Fixpoint words_from (cur : jsstring) (s : jsstring) : list jsstring :=
  match s with
  | [] => match cur with [] => [] | _ => [rev cur] end
  | c :: r =>
      if is_ws c
      then match cur with
           | [] => words_from [] r
           | _ => rev cur :: words_from [] r
           end
      else words_from (c :: cur) r
  end.

Definition words (s : jsstring) : list jsstring := words_from [] s.

Fixpoint unwords (ws : list jsstring) : jsstring :=
  match ws with
  | [] => []
  | [w] => w
  | w :: rest => w ++ SPACE :: unwords rest
  end.

Definition spec_normalize (text : jsstring) : jsstring := unwords (words text).

(** [trimEnd] read from the right: a unit is dropped when it is white space
    and nothing is kept after it. *)
Fixpoint trimEnd_fold (s : jsstring) : jsstring :=
  match s with
  | [] => []
  | c :: r =>
      match trimEnd_fold r with
      | [] => if is_ws c then [] else [c]
      | t => c :: t
      end
  end.

(** ** JavaScript values and numbers *)

(** A field of the parsed JSON body as [typeof] sees it; [JObject] stands
    for every array and object. *)
Inductive jsval :=
| JUndefined
| JNull
| JBool (b : bool)
| JNumber (q : Q)
| JString (s : jsstring)
| JObject.

Definition typeof_number (v : jsval) : bool :=
  match v with JNumber _ => true | _ => false end.

(** What [parseFloat] returns: NaN when the text (or [undefined]) does not
    start with a number. *)
Inductive jsnum :=
| NaN
| Num (q : Q).

Definition Qgtb (x y : Q) : bool := negb (Qle_bool x y).

(** [x || d]: NaN and 0 are falsy. *)
Definition num_or (x : jsnum) (d : Q) : Q :=
  match x with
  | NaN => d
  | Num q => if Qeq_bool q 0 then d else q
  end.

Definition Q_or (x d : Q) : Q := if Qeq_bool x 0 then d else x.
Definition Z_or (x d : Z) : Z := if Z.eqb x 0 then d else x.

(** [!s] for a body field that is absent or a string. *)
Definition falsy_opt (s : option jsstring) : bool :=
  match s with
  | None => true
  | Some s => falsy_str s
  end.

(** [s || ''] *)
Definition or_empty (s : option jsstring) : jsstring :=
  match s with
  | None => []
  | Some s => s
  end.

(** ** Configuration *)

(** [process.env], through the only variable whose value enters the
    computations: [parsed_GRID] is parseFloat(process.env.GRID_KGCO2_PER_KWH). *)
Record env := { parsed_GRID : jsnum }.

Definition default_env : env := {| parsed_GRID := NaN |}.

(** [parseFloat(process.env.GRID_KGCO2_PER_KWH) || 0.45] *)
Definition GRID_KGCO2_PER_KWH (E : env) : Q := num_or (parsed_GRID E) (45 # 100).

(** [0.0003 / 1000] *)
Definition kwh_per_token : Q := (3 # 10000) / 1000.

(** ** The savings computation of the optimize handler *)

Record savings := {
  s_tokens_saved : Q;
  s_kwh_saved : Q;
  s_co2_saved_kg : Q
}.

Definition compute_savings (E : env) (tb ta : Q) : savings :=
  let tokens_saved := Qmax 0 (tb - ta) in
  let kwh_saved := tokens_saved * kwh_per_token in
  let co2_saved_kg := kwh_saved * GRID_KGCO2_PER_KWH E in
  {| s_tokens_saved := tokens_saved;
     s_kwh_saved := kwh_saved;
     s_co2_saved_kg := co2_saved_kg |}.

(** [Math.max(0, tb - Math.max(0, Math.floor(tb * 0.2)))] *)
Definition default_tokens_after (tb : Q) : Q :=
  Qmax 0 (tb - Qmax 0 (inject_Z (Qfloor (tb * (2 # 10))))).

(** ** The store (server/db.js) *)

Record user_row := {
  u_id : Z;
  u_email : jsstring;
  u_password_hash : jsstring
}.

Record optimization_row := {
  o_id : Z;
  o_user_id : option Z;
  o_prompt : jsstring;
  o_optimized_prompt : jsstring;
  o_tokens_before : Q;
  o_tokens_after : Q;
  o_tokens_saved : Q;
  o_co2_saved_kg : Q
}.

(** The two tables in insertion order, each with the last rowid its
    AUTOINCREMENT key handed out. *)
Record database := {
  users : list user_row;
  users_seq : Z;
  optimizations : list optimization_row;
  optimizations_seq : Z
}.

Definition empty_db : database :=
  {| users := []; users_seq := 0; optimizations := []; optimizations_seq := 0 |}.

(** SELECT ... FROM users WHERE email = ?, for an email of well-formed
    UTF-16, which SQLite is handed unchanged ([select_user_by_bound_email]
    has the others). *)
Definition select_user_by_email (d : database) (email : jsstring) : option user_row :=
  find (fun u => jsstring_eqb (u_email u) email) (users d).

(** SELECT id, email FROM users WHERE id = ? *)
Definition select_user_by_id (d : database) (id : Z) : option user_row :=
  find (fun u => Z.eqb (u_id u) id) (users d).

(** INSERT INTO users (email, password_hash); returns lastInsertRowid. *)
Definition insert_user (d : database) (email password_hash : jsstring)
  : database * Z :=
  let rowid := (users_seq d + 1)%Z in
  ({| users := users d ++ [{| u_id := rowid; u_email := email;
                              u_password_hash := password_hash |}];
      users_seq := rowid;
      optimizations := optimizations d;
      optimizations_seq := optimizations_seq d |}, rowid).

(** INSERT INTO optimizations (...); returns lastInsertRowid. *)
Definition insert_optimization (d : database) (user_id : option Z)
    (prompt optimized_prompt : jsstring) (tb ta tokens_saved co2_saved_kg : Q)
  : database * Z :=
  let rowid := (optimizations_seq d + 1)%Z in
  ({| users := users d;
      users_seq := users_seq d;
      optimizations := optimizations d ++
        [{| o_id := rowid; o_user_id := user_id; o_prompt := prompt;
            o_optimized_prompt := optimized_prompt;
            o_tokens_before := tb; o_tokens_after := ta;
            o_tokens_saved := tokens_saved;
            o_co2_saved_kg := co2_saved_kg |}];
      optimizations_seq := rowid |}, rowid).

(** SELECT COUNT( * ) *)
Definition count_rows {A : Type} (rows : list A) : Z := Z.of_nat (List.length rows).

(** SELECT IFNULL(SUM(co2_saved_kg), 0) FROM optimizations *)
Definition sum_co2 (rows : list optimization_row) : Q :=
  fold_right (fun r acc => o_co2_saved_kg r + acc) 0 rows.

(** ** Requests and responses *)

Record request := {
  cookie_token : option jsstring;
  body_email : option jsstring;
  body_password : option jsstring;
  body_prompt : option jsstring;
  body_optimized_prompt : option jsstring;
  body_tokens_before : jsval;
  body_tokens_after : jsval
}.

Record optimize_json := {
  r_id : Z;
  r_user_id : option Z;
  r_tokens_before : Q;
  r_tokens_after : Q;
  r_tokens_saved : Q;
  r_kwh_saved : Q;
  r_co2_saved_kg : Q
}.

Record stats_json := {
  st_users : Z;
  st_co2_saved_kg : Q;
  st_co2_saved_g : Q;
  st_prompts_optimized : Z;
  st_energy_saved_kwh : Q;
  st_impact_score : Q
}.

Inductive json :=
| Message (m : string)
| UserJson (user : option (Z * jsstring))
| OkTrue
| OptimizeJson (o : optimize_json)
| StatsJson (s : stats_json).

Inductive cookie_effect :=
| NoCookie
| SetToken (token : jsstring)
| ClearToken.

Record response := {
  status : Z;
  body : json;
  cookie : cookie_effect
}.

Definition reply (code : Z) (j : json) : response :=
  {| status := code; body := j; cookie := NoCookie |}.

(** ** bcrypt and jsonwebtoken *)

Class Platform := {
  bcrypt_hash : jsstring -> jsstring;
  bcrypt_compare : jsstring -> jsstring -> bool;
  (** jwt.sign of the payload (id, email) with the server secret *)
  jwt_sign : Z -> jsstring -> jsstring;
  (** jwt.verify: the id of the payload, or [None] where it throws
      (malformed, wrongly signed or expired token) *)
  jwt_verify : jsstring -> option Z
}.

(** ** The handlers of server/index.js *)

Section Server.

Context {P : Platform}.

(** [createToken(user)] *)
Definition createToken (id : Z) (email : jsstring) : jsstring := jwt_sign id email.

(** [getUserFromToken(req)]: the row (id, email) or null.  A throwing
    [jwt.verify] lands in the [catch], which returns null. *)
Definition getUserFromToken (d : database) (req : request) : option (Z * jsstring) :=
  match cookie_token req with
  | None => None
  | Some token =>
      if falsy_str token then None
      else
        match jwt_verify token with
        | None => None
        | Some payload_id =>
            match select_user_by_id d payload_id with
            | Some row => Some (u_id row, u_email row)
            | None => None
            end
        end
  end.

(** POST /api/auth/signup on credentials that are absent or strings, where
    bcrypt.hash does not throw ([signup_full] has the other bodies and the
    [catch]). *)
Definition signup (d : database) (req : request) : database * response :=
  if falsy_opt (body_email req) || falsy_opt (body_password req)
  then (d, reply 400 (Message "Email and password required"))
  else
    let email := or_empty (body_email req) in
    let password := or_empty (body_password req) in
    match select_user_by_email d email with
    | Some _ => (d, reply 409 (Message "Email already in use"))
    | None =>
        let password_hash := bcrypt_hash password in
        let (d', rowid) := insert_user d email password_hash in
        let token := createToken rowid email in
        (d', {| status := 200;
                body := UserJson (Some (rowid, email));
                cookie := SetToken token |})
    end.

(** POST /api/auth/login on credentials that are absent or strings, where
    bcrypt.compare does not throw ([login_full] has the other bodies and the
    [catch]). *)
Definition login (d : database) (req : request) : database * response :=
  if falsy_opt (body_email req) || falsy_opt (body_password req)
  then (d, reply 400 (Message "Email and password required"))
  else
    let email := or_empty (body_email req) in
    let password := or_empty (body_password req) in
    match select_user_by_email d email with
    | None => (d, reply 401 (Message "Invalid credentials"))
    | Some row =>
        if negb (bcrypt_compare password (u_password_hash row))
        then (d, reply 401 (Message "Invalid credentials"))
        else
          let token := createToken (u_id row) (u_email row) in
          (d, {| status := 200;
                 body := UserJson (Some (u_id row, u_email row));
                 cookie := SetToken token |})
    end.

(** GET /api/auth/me *)
Definition me (d : database) (req : request) : database * response :=
  match getUserFromToken d req with
  | None => (d, reply 200 (UserJson None))
  | Some user => (d, reply 200 (UserJson (Some user)))
  end.

(** POST /api/auth/logout *)
Definition logout (d : database) (req : request) : database * response :=
  (d, {| status := 200; body := OkTrue; cookie := ClearToken |}).

(** The two token counts the optimize handler works with. *)
Definition tokens_before_of (req : request) : Q :=
  match body_tokens_before req with
  | JNumber q => q
  | _ => inject_Z (estimateTokens (or_empty (body_prompt req)))
  end.

Definition tokens_after_of (req : request) (tb : Q) : Q :=
  match body_tokens_after req with
  | JNumber q => q
  | _ =>
      if falsy_opt (body_optimized_prompt req)
      then default_tokens_after tb
      else inject_Z (estimateTokens (or_empty (body_optimized_prompt req)))
  end.

(** POST /api/optimize on a body whose prompts are absent or strings and
    whose counts are finite, where the INSERT does not fail
    ([optimize_outcome_of] has the infinite counts and the [catch]). *)
Definition optimize (E : env) (d : database) (req : request) : database * response :=
  if falsy_opt (body_prompt req)
  then (d, reply 400 (Message "prompt required"))
  else
    let prompt := or_empty (body_prompt req) in
    let tb := tokens_before_of req in
    let ta := tokens_after_of req tb in
    let s := compute_savings E tb ta in
    let user := getUserFromToken d req in
    let user_id := option_map fst user in
    let (d', rowid) :=
      insert_optimization d user_id prompt
        (or_empty (body_optimized_prompt req)) tb ta
        (s_tokens_saved s) (s_co2_saved_kg s) in
    (d', reply 200 (OptimizeJson
           {| r_id := rowid;
              r_user_id := user_id;
              r_tokens_before := tb;
              r_tokens_after := ta;
              r_tokens_saved := s_tokens_saved s;
              r_kwh_saved := s_kwh_saved s;
              r_co2_saved_kg := s_co2_saved_kg s |})).

(** The body of the stats handler once the grid intensity is known. *)
Definition snapshot (GRID : Q) (d : database) : stats_json :=
  let users := Z_or (count_rows (users d)) 0 in
  let prompts_optimized := Z_or (count_rows (optimizations d)) 0 in
  let co2_saved_kg := Q_or (sum_co2 (optimizations d)) 0 in
  let energy_saved_kwh := if Qgtb GRID 0 then co2_saved_kg / GRID else 0 in
  let impact_score :=
    co2_saved_kg * 1000 + inject_Z prompts_optimized * (1 # 10)
    + inject_Z users * 1 in
  {| st_users := users;
     st_co2_saved_kg := co2_saved_kg;
     st_co2_saved_g := co2_saved_kg * 1000;
     st_prompts_optimized := prompts_optimized;
     st_energy_saved_kwh := energy_saved_kwh;
     st_impact_score := impact_score |}.

(** Which branch of [GRID > 0 ? ... : 0] the stats handler takes. *)
Definition stats_takes_guard_branch (E : env) : bool :=
  negb (Qgtb (GRID_KGCO2_PER_KWH E) 0).

(** GET /api/stats *)
Definition stats (E : env) (d : database) (req : request) : database * response :=
  (d, reply 200 (StatsJson (snapshot (GRID_KGCO2_PER_KWH E) d))).

(** GET /api/health *)
Definition health (d : database) (req : request) : database * response :=
  (d, reply 200 OkTrue).

(** ** The server as a transition system *)

Inductive endpoint :=
| POST_signup
| POST_login
| GET_me
| POST_logout
| POST_optimize
| GET_stats
| GET_health.

Definition handle (E : env) (ep : endpoint) (d : database) (req : request)
  : database * response :=
  match ep with
  | POST_signup => signup d req
  | POST_login => login d req
  | GET_me => me d req
  | POST_logout => logout d req
  | POST_optimize => optimize E d req
  | GET_stats => stats E d req
  | GET_health => health d req
  end.

(** The stores a server started on the empty tables can be in, when every
    request it is sent satisfies [sent]. *)
Inductive reachable (E : env) (sent : request -> Prop) : database -> Prop :=
| reachable_init : reachable E sent empty_db
| reachable_step : forall d ep req,
    reachable E sent d -> sent req ->
    reachable E sent (fst (handle E ep d req)).

Definition any_request (req : request) : Prop := True.

(** The records a handler added to the optimizations table. *)
Definition new_rows (d d' : database) : list optimization_row :=
  skipn (List.length (optimizations d)) (optimizations d').

(** The invariant of the data model on one stored record. *)
Definition derived_fields_ok (E : env) (r : optimization_row) : Prop :=
  o_tokens_saved r == Qmax 0 (o_tokens_before r - o_tokens_after r)
  /\ o_co2_saved_kg r == o_tokens_saved r * kwh_per_token * GRID_KGCO2_PER_KWH E.

Definition is_natural (q : Q) : Prop := exists n : nat, q == inject_Z (Z.of_nat n).

Definition counts_natural (r : optimization_row) : Prop :=
  is_natural (o_tokens_before r) /\ is_natural (o_tokens_after r).

(** The token counts the client put in the body, if any, are naturals. *)
Definition client_counts_natural (req : request) : Prop :=
  (forall q, body_tokens_before req = JNumber q -> is_natural q)
  /\ (forall q, body_tokens_after req = JNumber q -> is_natural q).

(** Both fields of a signup or login body are present and not empty. *)
Definition credentials_present (req : request) : Prop :=
  falsy_opt (body_email req) = false /\ falsy_opt (body_password req) = false.

(** A session token that does not identify a user of the store. *)
Definition token_fails (d : database) (req : request) : Prop :=
  match cookie_token req with
  | None => True
  | Some token =>
      token = []
      \/ jwt_verify token = None
      \/ exists id, jwt_verify token = Some id /\ select_user_by_id d id = None
  end.

Definition without_token (req : request) : request :=
  {| cookie_token := None;
     body_email := body_email req;
     body_password := body_password req;
     body_prompt := body_prompt req;
     body_optimized_prompt := body_optimized_prompt req;
     body_tokens_before := body_tokens_before req;
     body_tokens_after := body_tokens_after req |}.

End Server.

(** A toy platform for running the handlers on examples: the hash is the
    password itself and a token is the decimal-free pair (id) kept as one
    code unit. *)
Definition toy_platform : Platform :=
  {| bcrypt_hash := fun pw => pw;
     bcrypt_compare := fun pw h => jsstring_eqb pw h;
     jwt_sign := fun id _ => [Z.to_N id];
     jwt_verify := fun t =>
       match t with
       | [n] => Some (Z.of_N n)
       | _ => None
       end |}.

Definition blank_request : request :=
  {| cookie_token := None;
     body_email := None;
     body_password := None;
     body_prompt := None;
     body_optimized_prompt := None;
     body_tokens_before := JUndefined;
     body_tokens_after := JUndefined |}.

(** Example bodies of POST /api/optimize. *)
Definition optimize_request (prompt : string) (optimized_prompt : option jsstring)
    (tokens_before tokens_after : jsval) : request :=
  {| cookie_token := None;
     body_email := None;
     body_password := None;
     body_prompt := Some (lit prompt);
     body_optimized_prompt := optimized_prompt;
     body_tokens_before := tokens_before;
     body_tokens_after := tokens_after |}.

(** Example bodies of the signup and login endpoints. *)
Definition auth_request (email password : string) : request :=
  {| cookie_token := None;
     body_email := Some (lit email);
     body_password := Some (lit password);
     body_prompt := None;
     body_optimized_prompt := None;
     body_tokens_before := JUndefined;
     body_tokens_after := JUndefined |}.

Definition with_token (token : jsstring) (req : request) : request :=
  {| cookie_token := Some token;
     body_email := body_email req;
     body_password := body_password req;
     body_prompt := body_prompt req;
     body_optimized_prompt := body_optimized_prompt req;
     body_tokens_before := body_tokens_before req;
     body_tokens_after := body_tokens_after req |}.

(** The store after signup("a@x.com", "pw1") on the empty tables. *)
Definition store_one_user : database :=
  fst (handle (P := toy_platform) default_env POST_signup empty_db
         (auth_request "a@x.com" "pw1")).

(** A body with a prompt only, one with the counts 10 and 6 of the spec's
    scenario, one whose tokens_before is negative, and one whose
    optimized_prompt is the empty string. *)
Definition prompt_only : request :=
  optimize_request "the quick brown fox and a turtle" None JUndefined JUndefined.

Definition counts_10_6 : request :=
  optimize_request "the quick brown fox and a turtle" (Some (lit "quick brown fox turtle"))
    (JNumber 10) (JNumber 6).

Definition negative_before : request :=
  optimize_request "x" None (JNumber (-5 # 1)) JUndefined.


Definition store_after (req : request) : database :=
  fst (handle (P := toy_platform) default_env POST_optimize empty_db req).

(** A configuration with a negative grid intensity. *)
Definition negative_grid : env := {| parsed_GRID := Num (-1 # 1) |}.

(** ** Runs of the server *)

Section Runs.

Context {P : Platform}.

(** The store after the server has answered the requests of [trace] in
    order. *)
Fixpoint run (E : env) (d : database) (trace : list (endpoint * request)) : database :=
  match trace with
  | [] => d
  | (ep, req) :: rest => run E (fst (handle E ep d req)) rest
  end.

(** The rowids a table has handed out are 1, 2, ... in insertion order. *)
Definition rowids_in_sequence (ids : list Z) (last : Z) : Prop :=
  ids = map Z.of_nat (seq 1 (List.length ids)) /\ last = Z.of_nat (List.length ids).

(** Every user_id stored with an optimization is the id of a user row. *)
Definition user_ids_resolve (d : database) : Prop :=
  Forall (fun r => match o_user_id r with
                   | None => True
                   | Some id => In id (map u_id (users d))
                   end) (optimizations d).

(** SELECT SUM(tokens_saved * kwh_per_token): the energy the records stand
    for. *)
Definition sum_kwh (rows : list optimization_row) : Q :=
  fold_right (fun r acc => o_tokens_saved r * kwh_per_token + acc) 0 rows.

End Runs.


(** ** More on the estimator *)

(** The estimate as a function of the length of the normal form. *)
Definition tokens_of_length (n : nat) : Z :=
  match n with
  | O => 0
  | _ => Z.max 1 (ceil_quarter n)
  end.

(** [deletes_nonspace s' s]: [s'] is [s] with some units that are not white
    space deleted. *)
Inductive deletes_nonspace : jsstring -> jsstring -> Prop :=
| dn_nil : deletes_nonspace [] []
| dn_keep : forall c s' s,
    deletes_nonspace s' s -> deletes_nonspace (c :: s') (c :: s)
| dn_drop : forall c s' s,
    is_ws c = false -> deletes_nonspace s' s -> deletes_nonspace s' (c :: s).

(** ** The optimizer of the client (OptimizeTab.jsx, handleSend) *)

(** [\w] without the unicode flag: digits, letters and the underscore. *)
Definition is_word (c : code_unit) : bool :=
  ((48 <=? c) && (c <=? 57) || (65 <=? c) && (c <=? 90) || (c =? 95)
   || (97 <=? c) && (c <=? 122))%N.

(** A lower-case letter [p] of the pattern under the flag [i]: it matches
    itself and its capital (without the unicode flag no other code unit
    canonicalizes to an ASCII letter). *)
Definition matches_letter (p c : code_unit) : bool :=
  ((c =? p) || (c =? p - 32))%N.

(** The alternatives of the pattern, in its order. *)
Definition fillers : list jsstring :=
  map lit ["the"; "and"; "a"; "an"; "that"; "please"; "kindly"; "just"]%string.

(** Matching one alternative at the head of [s]: what follows it, if it is
    there. *)
Fixpoint match_word (w s : jsstring) : option jsstring :=
  match w, s with
  | [], _ => Some s
  | p :: w', c :: s' => if matches_letter p c then match_word w' s' else None
  | _ :: _, [] => None
  end.

(** [\b] between a unit whose wordness is [prev] (false at the start of the
    text) and the rest [s] (not a word unit at its end). *)
Definition word_boundary (prev : bool) (s : jsstring) : bool :=
  xorb prev (match s with [] => false | c :: _ => is_word c end).

(** [(the|and|...)\b] at the head of [s]: the alternatives are tried in
    order, and one whose end is no word boundary is given up for the next. *)
Fixpoint match_alternatives (ws : list jsstring) (s : jsstring) : option jsstring :=
  match ws with
  | [] => None
  | w :: ws' =>
      match match_word w s with
      | Some rest =>
          if word_boundary true rest then Some rest else match_alternatives ws' s
      | None => match_alternatives ws' s
      end
  end.

(** [s.replace(/\b(the|and|a|an|that|please|kindly|just)\b/gi, "")], scanning
    from the left: a match is dropped and the scan goes on behind it (its
    last unit is a letter), otherwise the unit at the head is kept.  [fuel]
    bounds the number of steps. *)
Fixpoint strip_scan (fuel : nat) (prev : bool) (s : jsstring) : jsstring :=
  match fuel with
  | O => s
  | S fuel' =>
      match s with
      | [] => []
      | c :: r =>
          match (if word_boundary prev s then match_alternatives fillers s else None) with
          | Some rest => strip_scan fuel' true rest
          | None => c :: strip_scan fuel' (is_word c) r
          end
      end
  end.

Definition strip_fillers (s : jsstring) : jsstring :=
  strip_scan (List.length s) false s.

(** [Math.max(10, Math.floor(originalLen * 0.75))] *)
Definition targetLen (originalLen : nat) : nat :=
  Nat.max 10 (Z.to_nat (Qfloor (inject_Z (Z.of_nat originalLen) * (75 # 100)))).

(** The text the client suggests for [input]. *)
Definition optimize_text (input : jsstring) : jsstring :=
  let optimized := trim (replace_ws (strip_fillers input)) in
  let originalLen := List.length optimized in
  if Nat.ltb (targetLen originalLen) (List.length optimized)
  then trim (firstn (targetLen originalLen) optimized)
  else optimized.

(** [0.0003 / 1000] of the client *)
Definition KWH_PER_TOKEN : Q := (3 # 10000) / 1000.

Inductive chat_message :=
| FromUser (text : jsstring)
| AlreadyOptimalNote
| Suggestion (optimized : jsstring).

(** The state of the tab that handleSend reads and writes (the typing
    indicator, the input box and the count-up trigger are left out). *)
Record tab_state := {
  messages : list chat_message;
  tokensBefore : Z;
  tokensAfter : Z;
  co2SavedKg : Q
}.

Definition initial_tab : tab_state :=
  {| messages := []; tokensBefore := 0; tokensAfter := 0; co2SavedKg := 0 |}.

(** [handleSend] with the timer run to its end: the new state and the body
    posted to /api/optimize, if one is.  [CE] is the environment of the
    client build and [session] the cookie the browser holds. *)
Definition handleSend (CE : env) (session : option jsstring) (st : tab_state)
    (input : jsstring) : tab_state * option request :=
  if falsy_str (trim input) then (st, None)
  else
    let tb := estimateTokens input in
    let optimized := optimize_text input in
    let ta := estimateTokens optimized in
    let tokensSaved := Z.max 0 (tb - ta) in
    if Z.eqb tb ta
    then ({| messages := messages st ++ [FromUser input; AlreadyOptimalNote];
             tokensBefore := tb;
             tokensAfter := tokensAfter st;
             co2SavedKg := co2SavedKg st |}, None)
    else
      let kwhSaved := inject_Z tokensSaved * KWH_PER_TOKEN in
      let co2Kg := kwhSaved * GRID_KGCO2_PER_KWH CE in
      ({| messages := messages st ++ [FromUser input; Suggestion optimized];
          tokensBefore := tb;
          tokensAfter := ta;
          co2SavedKg := co2Kg |},
       Some {| cookie_token := session;
               body_email := None;
               body_password := None;
               body_prompt := Some input;
               body_optimized_prompt := Some optimized;
               body_tokens_before := JNumber (inject_Z tb);
               body_tokens_after := JNumber (inject_Z ta) |}).

(** The counters panel is shown when [tokensBefore > 0 || tokensAfter > 0]. *)
Definition panel_shown (st : tab_state) : bool :=
  Z.ltb 0 (tokensBefore st) || Z.ltb 0 (tokensAfter st).

(** ASCII letters, the only units the pattern of the client can match. *)
Definition is_letter (c : code_unit) : bool :=
  ((65 <=? c) && (c <=? 90) || (97 <=? c) && (c <=? 122))%N.

(** [deletes_only p s' s]: [s'] is [s] with some units satisfying [p]
    deleted. *)
Inductive deletes_only (p : code_unit -> bool) : jsstring -> jsstring -> Prop :=
| do_nil : deletes_only p [] []
| do_keep : forall c s' s,
    deletes_only p s' s -> deletes_only p (c :: s') (c :: s)
| do_drop : forall c s' s,
    p c = true -> deletes_only p s' s -> deletes_only p s' (c :: s).

(** ** JSON objects as the client reads them *)

#[warnings="-register-all"]
Inductive field_value :=
| FNumber (q : Q)
| FString (s : jsstring)
| FBoolean (b : bool)
| FNull
| FFunction
| FObject (fields : list (string * field_value)).

Definition js_object := list (string * field_value).

(** [o.key]: [None] is undefined. *)
Fixpoint get_field (key : string) (o : js_object) : option field_value :=
  match o with
  | [] => None
  | (k, v) :: rest => if String.eqb k key then Some v else get_field key rest
  end.

Definition number_or_null (id : option Z) : field_value :=
  match id with
  | None => FNull
  | Some n => FNumber (inject_Z n)
  end.

(** The object each [res.json(...)] of the server sends. *)
Definition json_object (j : json) : js_object :=
  match j with
  | Message m => [("message", FString (lit m))]
  | UserJson None => [("user", FNull)]
  | UserJson (Some (id, email)) =>
      [("user", FObject [("id", FNumber (inject_Z id)); ("email", FString email)])]
  | OkTrue => [("ok", FBoolean true)]
  | OptimizeJson o =>
      [("id", FNumber (inject_Z (r_id o)));
       ("user_id", number_or_null (r_user_id o));
       ("tokens_before", FNumber (r_tokens_before o));
       ("tokens_after", FNumber (r_tokens_after o));
       ("tokens_saved", FNumber (r_tokens_saved o));
       ("kwh_saved", FNumber (r_kwh_saved o));
       ("co2_saved_kg", FNumber (r_co2_saved_kg o))]
  | StatsJson s =>
      [("users", FNumber (inject_Z (st_users s)));
       ("co2_saved_kg", FNumber (st_co2_saved_kg s));
       ("co2_saved_g", FNumber (st_co2_saved_g s));
       ("prompts_optimized", FNumber (inject_Z (st_prompts_optimized s)));
       ("energy_saved_kwh", FNumber (st_energy_saved_kwh s));
       ("impact_score", FNumber (st_impact_score s))]
  end%string.

(** [res.ok] *)
Definition response_ok (res : response) : bool :=
  Z.leb 200 (status res) && Z.leb (status res) 299.

(** ** The stats tab (StatsTab.jsx) *)

Definition StatsTab_initial : js_object :=
  [("users", FNumber 0); ("co2_saved_kg", FNumber 0);
   ("prompts_optimized", FNumber 0); ("energy_saved_kwh", FNumber 0);
   ("impact_score", FNumber 0); ("tokens_saved", FNumber 0);
   ("miles_saved", FNumber 0)]%string.

(** [load]: on an ok answer the state is replaced by the parsed body; on any
    other the error is caught and the state stays. *)
Definition StatsTab_load (state : js_object) (res : response) : js_object :=
  if response_ok res then json_object (body res) else state.

(** [v.toLocaleString()] is a TypeError on undefined and on null. *)
Definition can_call_toLocaleString (v : option field_value) : bool :=
  match v with
  | None | Some FNull => false
  | Some _ => true
  end.

(** [v.toFixed(n)] needs a number. *)
Definition can_call_toFixed (v : option field_value) : bool :=
  match v with
  | Some (FNumber _) => true
  | _ => false
  end.

(** The five cells of the tab that call a method straight on a field of the
    state; rendering throws when one of them does. *)
Definition StatsTab_cells_render (state : js_object) : bool :=
  (can_call_toLocaleString (get_field "tokens_saved" state)
   && can_call_toFixed (get_field "miles_saved" state)
   && can_call_toLocaleString (get_field "users" state)
   && can_call_toLocaleString (get_field "prompts_optimized" state)
   && can_call_toFixed (get_field "energy_saved_kwh" state))%string.

(** ** The session of the client (AuthContext.jsx) and the navigation bar
    (App.js) *)

(** The value the provider hands to its consumers:
    [{ user, loading, login, logout, signup }]. *)
Definition AuthContext_value (user : option field_value) (loading : bool) : js_object :=
  [("user", match user with None => FNull | Some u => u end);
   ("loading", FBoolean loading);
   ("login", FFunction); ("logout", FFunction); ("signup", FFunction)]%string.

Definition truthy (v : option field_value) : bool :=
  match v with
  | None | Some FNull => false
  | Some (FBoolean b) => b
  | Some (FNumber q) => negb (Qeq_bool q 0)
  | Some (FString s) => negb (falsy_str s)
  | Some FFunction | Some (FObject _) => true
  end.

(** The user state after the check of /api/auth/me on load got the answer
    [res]: [data.user || null] on an ok answer, null otherwise ([None] is
    null). *)
Definition AuthProvider_check (res : response) : option field_value :=
  if response_ok res
  then match get_field "user" (json_object (body res)) with
       | Some v => if truthy (Some v) then Some v else None
       | None => None
       end
  else None.

(** The user state after the [login] (or [signup]) of the provider got the
    answer [res]: the [user] of the body on an ok answer; otherwise the
    function throws and the state stays. *)
Definition AuthProvider_login (user : option field_value) (res : response)
  : option field_value :=
  if response_ok res
  then match get_field "user" (json_object (body res)) with
       | Some FNull | None => None
       | Some v => Some v
       end
  else user.

Inductive navbar_view :=
| AccountAndLogout (current : field_value)
| LoginAndSignupLinks.

(** [const { currentUser, logout } = useAuth()] and the branch on
    [currentUser]. *)
Definition Navbar (ctx : js_object) : navbar_view :=
  match get_field "currentUser" ctx with
  | Some v => if truthy (Some v) then AccountAndLogout v else LoginAndSignupLinks
  | None => LoginAndSignupLinks
  end.

(** ** More examples *)

(** The store after a signup and an optimization sent with its cookie. *)
Definition store_with_session : database :=
  run (P := toy_platform) default_env empty_db
    [(POST_signup, auth_request "a@x.com" "pw1");
     (POST_optimize, with_token [1%N] prompt_only)].

(** A prompt sent from the tab in its initial state, and the body posted. *)
Definition example_send : tab_state * option request :=
  handleSend default_env None initial_tab
    (lit "please just tell me the answer and that is all").

Definition example_posted : request :=
  match snd example_send with
  | Some req => req
  | None => blank_request
  end.

(** A body without its two token counts. *)
Definition without_counts (req : request) : request :=
  {| cookie_token := cookie_token req;
     body_email := body_email req;
     body_password := body_password req;
     body_prompt := body_prompt req;
     body_optimized_prompt := body_optimized_prompt req;
     body_tokens_before := JUndefined;
     body_tokens_after := JUndefined |}.

(** ** The handlers on bodies of every shape

    [signup], [login] and [optimize] above are the handlers on the bodies
    the client sends: credentials that are strings of well-formed UTF-16 and
    counts that are finite numbers.  What follows covers the rest: a password
    that is not a string, on which bcrypt throws into the [catch] that answers
    500; an email with a lone surrogate, which better-sqlite3 binds (and the
    table stores) as U+FFFD; and a count that JSON.parse read as Infinity,
    whose arithmetic can give NaN, which the NOT NULL columns reject. *)

Definition is_high_surrogate (c : code_unit) : bool :=
  ((55296 <=? c) && (c <=? 56319))%N.

Definition is_low_surrogate (c : code_unit) : bool :=
  ((56320 <=? c) && (c <=? 57343))%N.

Definition REPLACEMENT : code_unit := 65533%N.

(** A JavaScript string after it went to SQLite as UTF-8 and came back: a
    surrogate that is not part of a pair has become U+FFFD. *)
Fixpoint sqlite_text (s : jsstring) : jsstring :=
  match s with
  | [] => []
  | c :: r =>
      if is_high_surrogate c
      then match r with
           | l :: r' =>
               if is_low_surrogate l then c :: l :: sqlite_text r'
               else REPLACEMENT :: sqlite_text r
           | [] => [REPLACEMENT]
           end
      else if is_low_surrogate c then REPLACEMENT :: sqlite_text r
      else c :: sqlite_text r
  end.

(** [!v] for a JSON value. *)
Definition falsy_val (v : jsval) : bool :=
  match v with
  | JUndefined | JNull => true
  | JBool b => negb b
  | JNumber q => Qeq_bool q 0
  | JString s => falsy_str s
  | JObject => false
  end.

(** The body of a signup or login: the email is absent or a string, the
    password is any JSON value. *)
Record auth_body := {
  a_email : option jsstring;
  a_password : jsval
}.

Definition auth_body_of (req : request) : auth_body :=
  {| a_email := body_email req;
     a_password := match body_password req with
                   | Some s => JString s
                   | None => JUndefined
                   end |}.

Section FullHandlers.

Context {P : Platform}.

(** SELECT ... FROM users WHERE email = ?, with the parameter bound as
    UTF-8. *)
Definition select_user_by_bound_email (d : database) (email : jsstring)
  : option user_row :=
  find (fun u => jsstring_eqb (u_email u) (sqlite_text email)) (users d).

(** POST /api/auth/signup with its [catch]: bcrypt.hash throws on data that
    is not a string. *)
Definition signup_full (d : database) (b : auth_body) : database * response :=
  if falsy_opt (a_email b) || falsy_val (a_password b)
  then (d, reply 400 (Message "Email and password required"))
  else
    let email := or_empty (a_email b) in
    match select_user_by_bound_email d email with
    | Some _ => (d, reply 409 (Message "Email already in use"))
    | None =>
        match a_password b with
        | JString password =>
            let password_hash := bcrypt_hash password in
            let (d', rowid) := insert_user d (sqlite_text email) password_hash in
            let token := createToken rowid email in
            (d', {| status := 200;
                    body := UserJson (Some (rowid, email));
                    cookie := SetToken token |})
        | _ => (d, reply 500 (Message "Server error"))
        end
    end.

(** POST /api/auth/login with its [catch]: bcrypt.compare, reached only when
    a row was found, throws on data that is not a string. *)
Definition login_full (d : database) (b : auth_body) : database * response :=
  if falsy_opt (a_email b) || falsy_val (a_password b)
  then (d, reply 400 (Message "Email and password required"))
  else
    let email := or_empty (a_email b) in
    match select_user_by_bound_email d email with
    | None => (d, reply 401 (Message "Invalid credentials"))
    | Some row =>
        match a_password b with
        | JString password =>
            if negb (bcrypt_compare password (u_password_hash row))
            then (d, reply 401 (Message "Invalid credentials"))
            else
              let token := createToken (u_id row) (u_email row) in
              (d, {| status := 200;
                     body := UserJson (Some (u_id row, u_email row));
                     cookie := SetToken token |})
        | _ => (d, reply 500 (Message "Server error"))
        end
    end.

End FullHandlers.

(** *** Numbers with the values JSON.parse and the arithmetic add *)

Inductive number :=
| Fin (q : Q)
| PosInf
| NegInf
| NotANumber.

Definition is_nan (n : number) : bool :=
  match n with NotANumber => true | _ => false end.

(** [x - y] *)
Definition num_sub (x y : number) : number :=
  match x, y with
  | NotANumber, _ | _, NotANumber => NotANumber
  | Fin a, Fin b => Fin (a - b)
  | PosInf, PosInf | NegInf, NegInf => NotANumber
  | PosInf, _ | _, NegInf => PosInf
  | NegInf, _ | _, PosInf => NegInf
  end.

(** [x * c] for a finite constant [c] *)
Definition num_scale (x : number) (c : Q) : number :=
  match x with
  | NotANumber => NotANumber
  | Fin a => Fin (a * c)
  | PosInf =>
      if Qeq_bool c 0 then NotANumber else if Qgtb c 0 then PosInf else NegInf
  | NegInf =>
      if Qeq_bool c 0 then NotANumber else if Qgtb c 0 then NegInf else PosInf
  end.

(** [Math.floor(x)] *)
Definition num_floor (x : number) : number :=
  match x with
  | Fin a => Fin (inject_Z (Qfloor a))
  | other => other
  end.

(** [Math.max(0, x)] *)
Definition num_max0 (x : number) : number :=
  match x with
  | NotANumber => NotANumber
  | PosInf => PosInf
  | NegInf => Fin 0
  | Fin a => Fin (Qmax 0 a)
  end.

(** The body of POST /api/optimize with counts that may be infinite;
    [None] is a count that is not of type number. *)
Record optimize_body := {
  ob_prompt : option jsstring;
  ob_optimized_prompt : option jsstring;
  ob_tokens_before : option number;
  ob_tokens_after : option number
}.



(** The values the handler hands to the INSERT. *)
Record bound_values := {
  bv_tokens_before : number;
  bv_tokens_after : number;
  bv_tokens_saved : number;
  bv_kwh_saved : number;
  bv_co2_saved_kg : number
}.

(** What the handler does with a body: answer 400, run into the [catch] and
    answer 500 with nothing written, or insert one record and answer 200. *)
Inductive optimize_outcome :=
| Rejected400
| Failed500
| Inserted (v : bound_values).

(** [Math.max(0, tb - Math.max(0, Math.floor(tb * 0.2)))] *)
Definition num_default_after (tb : number) : number :=
  num_max0 (num_sub tb (num_max0 (num_floor (num_scale tb (2 # 10))))).

(** Lines 138 to 174 of the handler: NaN is bound as NULL, which the NOT NULL
    columns refuse, and the throw of the INSERT lands in the [catch]. *)
Definition optimize_outcome_of (E : env) (b : optimize_body) : optimize_outcome :=
  if falsy_opt (ob_prompt b) then Rejected400
  else
    let tb := match ob_tokens_before b with
              | Some n => n
              | None => Fin (inject_Z (estimateTokens (or_empty (ob_prompt b))))
              end in
    let ta := match ob_tokens_after b with
              | Some n => n
              | None =>
                  if falsy_opt (ob_optimized_prompt b)
                  then num_default_after tb
                  else Fin (inject_Z (estimateTokens
                                        (or_empty (ob_optimized_prompt b))))
              end in
    let tokens_saved := num_max0 (num_sub tb ta) in
    let kwh_saved := num_scale tokens_saved kwh_per_token in
    let co2_saved_kg := num_scale kwh_saved (GRID_KGCO2_PER_KWH E) in
    if is_nan tb || is_nan ta || is_nan tokens_saved || is_nan co2_saved_kg
    then Failed500
    else Inserted {| bv_tokens_before := tb;
                     bv_tokens_after := ta;
                     bv_tokens_saved := tokens_saved;
                     bv_kwh_saved := kwh_saved;
                     bv_co2_saved_kg := co2_saved_kg |}.



(** The requests of a run that were sent to /api/optimize and answered
    200. *)
Fixpoint optimizes_answered_200 {P : Platform} (E : env) (d : database)
    (trace : list (endpoint * request)) : nat :=
  match trace with
  | [] => O
  | (ep, req) :: rest =>
      ((match ep with
        | POST_optimize =>
            if Z.eqb (status (snd (handle E ep d req))) 200 then 1 else 0
        | _ => 0
        end)
       + optimizes_answered_200 E (fst (handle E ep d req)) rest)%nat
  end.

(** The store after one optimization under a negative grid intensity. *)
Definition store_negative_grid : database :=
  fst (handle (P := toy_platform) negative_grid POST_optimize empty_db counts_10_6).

(** Example bodies of the signup and login endpoints: both fields strings,
    no password, and the number 123 as password. *)
Definition credentials (email password : string) : auth_body :=
  {| a_email := Some (lit email); a_password := JString (lit password) |}.

Definition email_only (email : string) : auth_body :=
  {| a_email := Some (lit email); a_password := JUndefined |}.

Definition numeric_password (email : string) : auth_body :=
  {| a_email := Some (lit email); a_password := JNumber 123 |}.

(** Two emails that differ as strings, each a surrogate without its pair,
    and the store after a signup with the first. *)
Definition lone_high : auth_body :=
  {| a_email := Some [55357%N]; a_password := JString (lit "pw1") |}.

Definition lone_low : auth_body :=
  {| a_email := Some [56832%N]; a_password := JString (lit "pw2") |}.

Definition store_lone_high : database :=
  fst (signup_full (P := toy_platform) empty_db lone_high).

(** The body {prompt: "p", tokens_before: 1e400, tokens_after: 1e400}, whose
    counts JSON.parse reads as Infinity, and the same with tokens_before
    only. *)
Definition infinite_counts : optimize_body :=
  {| ob_prompt := Some (lit "p");
     ob_optimized_prompt := None;
     ob_tokens_before := Some PosInf;
     ob_tokens_after := Some PosInf |}.

Definition infinite_before : optimize_body :=
  {| ob_prompt := Some (lit "p");
     ob_optimized_prompt := None;
     ob_tokens_before := Some PosInf;
     ob_tokens_after := None |}.

(** * Properties *)

(** ** Strings: trimming and collapsing *)

Lemma trimStart_app (x y : jsstring) :
  trimStart (x ++ y) =
  match trimStart x with
  | [] => trimStart y
  | t => t ++ y
  end.
Proof.
  induction x as [|c x IH]; simpl.
  - destruct (trimStart y); reflexivity.
  - destruct (is_ws c); [exact IH | reflexivity].
Qed.

Lemma trimEnd_cons (c : code_unit) (r : jsstring) :
  trimEnd (c :: r) =
  match trimEnd r with
  | [] => if is_ws c then [] else [c]
  | t => c :: t
  end.
Proof.
  unfold trimEnd. simpl rev. rewrite trimStart_app.
  destruct (trimStart (rev r)) as [|a t] eqn:Ht.
  - simpl. destruct (is_ws c); reflexivity.
  - rewrite rev_app_distr.
    remember (rev (a :: t)) as x eqn:Hx.
    destruct x as [|y x]; [|reflexivity].
    apply (f_equal (@List.length _)) in Hx. rewrite length_rev in Hx. discriminate.
Qed.

Lemma trimEnd_is_fold (s : jsstring) : trimEnd s = trimEnd_fold s.
Proof.
  induction s as [|c r IH]; [reflexivity|].
  rewrite trimEnd_cons, IH. reflexivity.
Qed.

Lemma trimStart_replace_ws (s : jsstring) (b : bool) :
  trimStart (replace_ws_from b s) = replace_ws_from false (trimStart s).
Proof.
  revert b. induction s as [|c r IH]; intro b; [reflexivity|].
  simpl. destruct (is_ws c) eqn:Hc.
  - destruct b; simpl; apply IH.
  - simpl. rewrite Hc. reflexivity.
Qed.

Lemma trimEnd_fold_keep (c : code_unit) (x : jsstring) :
  is_ws c = false -> trimEnd_fold (c :: x) = c :: trimEnd_fold x.
Proof.
  intro Hc. simpl. rewrite Hc. destruct (trimEnd_fold x); reflexivity.
Qed.

Lemma fold_after_trimStart (s : jsstring) :
  trimEnd_fold (replace_ws_from false (trimStart s)) =
  trimEnd_fold (replace_ws_from true s).
Proof.
  induction s as [|c r IH]; [reflexivity|].
  simpl. destruct (is_ws c) eqn:Hc; [exact IH|].
  simpl replace_ws_from. rewrite Hc. reflexivity.
Qed.

Lemma unwords_cons (w : jsstring) (rest : list jsstring) :
  unwords (w :: rest) =
  match unwords rest with
  | [] => match rest with [] => w | _ => w ++ [SPACE] end
  | u => w ++ SPACE :: u
  end.
Proof.
  simpl. destruct rest as [|w' rest']; [reflexivity|].
  destruct (unwords (w' :: rest')); reflexivity.
Qed.

Lemma words_from_nonempty (s cur : jsstring) :
  Forall (fun w => w <> []) (words_from cur s).
Proof.
  assert (Hrev : forall (a : code_unit) l, rev (a :: l) <> []).
  { intros a l H. apply (f_equal (@List.length _)) in H.
    rewrite length_rev in H. discriminate. }
  revert cur. induction s as [|c r IH]; intro cur; simpl.
  - destruct cur; constructor; [apply Hrev | constructor].
  - destruct (is_ws c); [|apply IH].
    destruct cur; [apply IH|]. constructor; [apply Hrev | apply IH].
Qed.

Lemma unwords_nil_iff (ws : list jsstring) :
  Forall (fun w => w <> []) ws -> unwords ws = [] -> ws = [].
Proof.
  intros H. destruct ws as [|w rest]; [reflexivity|].
  inversion H as [|? ? Hw _]; subst. simpl.
  destruct rest; [intro; contradiction|].
  destruct w; [contradiction | discriminate].
Qed.

Lemma fold_replace_words (s : jsstring) :
  trimEnd_fold (replace_ws_from true s) = unwords (words_from [] s)
  /\ forall a cur,
       rev (a :: cur) ++ trimEnd_fold (replace_ws_from false s)
       = unwords (words_from (a :: cur) s).
Proof.
  induction s as [|c r [IH1 IH2]].
  - split; [reflexivity|]. intros a cur. simpl.
    rewrite app_nil_r. destruct (rev cur ++ [a]) eqn:E; [|reflexivity].
    destruct (rev cur); discriminate.
  - simpl replace_ws_from. simpl words_from. destruct (is_ws c) eqn:Hc.
    + split; [exact IH1|]. intros a cur.
      change (trimEnd_fold (SPACE :: replace_ws_from true r))
        with (match trimEnd_fold (replace_ws_from true r) with
              | [] => if is_ws SPACE then [] else [SPACE]
              | t => SPACE :: t
              end).
      rewrite IH1, unwords_cons.
      destruct (unwords (words_from [] r)) as [|u us] eqn:Hu.
      * apply unwords_nil_iff in Hu; [|apply words_from_nonempty].
        rewrite Hu. simpl. apply app_nil_r.
      * reflexivity.
    + rewrite trimEnd_fold_keep by exact Hc. split.
      * rewrite <- (IH2 c []). reflexivity.
      * intros a cur. rewrite <- (IH2 c (a :: cur)).
        change (rev (c :: a :: cur)) with (rev (a :: cur) ++ [c]).
        rewrite <- app_assoc. reflexivity.
Qed.

(** The expression of the source computes the normal form of the spec. *)
Lemma normalize_refines_spec (text : jsstring) :
  normalize text = spec_normalize text.
Proof.
  unfold normalize, spec_normalize, words, trim, replace_ws.
  rewrite trimStart_replace_ws, trimEnd_is_fold, fold_after_trimStart.
  apply fold_replace_words.
Qed.

Lemma words_from_no_ws (s cur : jsstring) :
  Forall (fun c => is_ws c = false) cur ->
  Forall (Forall (fun c => is_ws c = false)) (words_from cur s).
Proof.
  revert cur. induction s as [|c r IH]; intros cur Hcur; simpl.
  - destruct cur; constructor; [|constructor].
    apply Forall_rev. exact Hcur.
  - destruct (is_ws c) eqn:Hc.
    + destruct cur; [apply IH; constructor|].
      constructor; [apply Forall_rev; exact Hcur | apply IH; constructor].
    + apply IH. constructor; assumption.
Qed.

(** ** The token estimator *)

Lemma ceil_quarter_eq (n : nat) : ceil_quarter n = ((Z.of_nat n + 3) / 4)%Z.
Proof.
  unfold ceil_quarter, Qceiling, Qfloor, Qdiv, Qmult, Qinv, inject_Z. simpl.
  generalize (Z.of_nat n). intro z.
  pose proof (Z.div_mod (- (z * 1)) 4 ltac:(lia)) as H1.
  pose proof (Z.mod_pos_bound (- (z * 1)) 4 ltac:(lia)) as H2.
  pose proof (Z.div_mod (z + 3) 4 ltac:(lia)) as H3.
  pose proof (Z.mod_pos_bound (z + 3) 4 ltac:(lia)) as H4.
  lia.
Qed.

Lemma ceil_quarter_bounds (n : nat) :
  (4 * (ceil_quarter n - 1) < Z.of_nat n <= 4 * ceil_quarter n)%Z.
Proof.
  rewrite ceil_quarter_eq.
  pose proof (Z.div_mod (Z.of_nat n + 3) 4 ltac:(lia)) as H3.
  pose proof (Z.mod_pos_bound (Z.of_nat n + 3) 4 ltac:(lia)) as H4.
  lia.
Qed.

Lemma estimateTokens_unfold (text : jsstring) :
  estimateTokens text =
  match normalize text with
  | [] => 0%Z
  | t => Z.max 1 (ceil_quarter (List.length t))
  end.
Proof.
  unfold estimateTokens. destruct text as [|c r]; [reflexivity|].
  simpl falsy_str. cbv iota. cbv zeta.
  destruct (normalize (c :: r)); reflexivity.
Qed.

Lemma estimateTokens_nonneg (text : jsstring) : (0 <= estimateTokens text)%Z.
Proof.
  rewrite estimateTokens_unfold. destruct (normalize text); lia.
Qed.

(** C1: the estimator returns 0 when the text, with its runs of white space
    collapsed to one space and trimmed, is empty, and otherwise the ceiling
    of a quarter of that length, which is at least 1; it is 0 on the empty
    text, 1 on "a", and k on a text of 4k units that the normalization leaves
    unchanged.  The normal form of the source is the one the spec words
    describe, and the function is defined on every string. *)
Theorem estimateTokens_spec (text : jsstring) :
  normalize text = spec_normalize text
  /\ (normalize text = [] -> estimateTokens text = 0%Z)
  /\ (normalize text <> [] ->
      let n := Z.of_nat (List.length (normalize text)) in
      estimateTokens text = ceil_quarter (List.length (normalize text))
      /\ (1 <= estimateTokens text)%Z
      /\ (4 * (estimateTokens text - 1) < n <= 4 * estimateTokens text)%Z)
  /\ estimateTokens (lit "") = 0%Z
  /\ estimateTokens (lit "a") = 1%Z
  /\ (forall k : nat,
        (0 < k)%nat -> List.length text = (4 * k)%nat -> normalize text = text ->
        estimateTokens text = Z.of_nat k).
Proof.
  split; [apply normalize_refines_spec|].
  split; [intro H; rewrite estimateTokens_unfold, H; reflexivity|].
  split.
  { intros Hne n. rewrite estimateTokens_unfold.
    destruct (normalize text) as [|c t] eqn:Hn; [contradiction|].
    pose proof (ceil_quarter_bounds (List.length (c :: t))) as Hb.
    assert (0 < Z.of_nat (List.length (c :: t)))%Z by (simpl List.length; lia).
    subst n. rewrite Z.max_r by lia. lia. }
  split; [reflexivity|].
  split; [reflexivity|].
  intros k Hk Hlen Hnorm. rewrite estimateTokens_unfold, Hnorm.
  destruct text as [|c t]; [simpl in Hlen; lia|].
  rewrite Hlen, ceil_quarter_eq.
  replace (Z.of_nat (4 * k) + 3)%Z with (3 + Z.of_nat k * 4)%Z by lia.
  rewrite Z.div_add by lia. change (3 / 4)%Z with 0%Z. lia.
Qed.

(** The estimator at a text of eight units with one inner space. *)
Lemma estimateTokens_spec_witness :
  estimateTokens (lit "abc defg") = 2%Z.
Proof.
  apply (proj2 (proj2 (proj2 (proj2 (proj2 (estimateTokens_spec (lit "abc defg"))))))
           2%nat); [lia | reflexivity | reflexivity].
Defined.

(** ** Numbers *)

Lemma Qgtb_true (x y : Q) : Qgtb x y = true <-> y < x.
Proof.
  unfold Qgtb. rewrite negb_true_iff. split; intro H.
  - apply Qnot_le_lt. intro Hle. apply Qle_bool_iff in Hle. congruence.
  - destruct (Qle_bool x y) eqn:Hb; [|reflexivity].
    apply Qle_bool_iff in Hb. exfalso. apply (Qlt_not_le _ _ H). exact Hb.
Qed.

Lemma Qgtb_false (x y : Q) : Qgtb x y = false <-> x <= y.
Proof.
  unfold Qgtb. rewrite negb_false_iff. apply Qle_bool_iff.
Qed.

Lemma Q_or_zero (x : Q) : Q_or x 0 == x.
Proof.
  unfold Q_or. destruct (Qeq_bool x 0) eqn:Hx; [|reflexivity].
  apply Qeq_bool_eq in Hx. symmetry. exact Hx.
Qed.

Lemma Z_or_zero (x : Z) : Z_or x 0 = x.
Proof.
  unfold Z_or. destruct (Z.eqb_spec x 0); congruence.
Qed.

Lemma Qmax_0_nonneg (x : Q) : 0 <= Qmax 0 x.
Proof. apply Q.le_max_l. Qed.

Lemma Qmax_0_of_nonneg (x : Q) : 0 <= x -> Qmax 0 x == x.
Proof. intro H. apply Q.max_r. exact H. Qed.

Lemma Qmax_0_of_nonpos (x : Q) : x <= 0 -> Qmax 0 x == 0.
Proof. intro H. apply Q.max_l. exact H. Qed.

Lemma kwh_per_token_pos : 0 < kwh_per_token.
Proof. reflexivity. Qed.

Lemma kwh_per_token_value : kwh_per_token == 3 # 10000000.
Proof. reflexivity. Qed.

(** ** The grid intensity *)

Lemma GRID_default : GRID_KGCO2_PER_KWH default_env = 45 # 100.
Proof. reflexivity. Qed.

Lemma GRID_nonzero (E : env) : ~ GRID_KGCO2_PER_KWH E == 0.
Proof.
  unfold GRID_KGCO2_PER_KWH, num_or. destruct (parsed_GRID E) as [|q].
  - discriminate.
  - destruct (Qeq_bool q 0) eqn:Hq; [discriminate|].
    intro H. apply Qeq_eq_bool in H. congruence.
Qed.

(** ** The savings computation *)


(** ** The optimize handler *)

Lemma skipn_length_app {A : Type} (l x : list A) :
  skipn (List.length l) (l ++ x) = x.
Proof. induction l as [|a l IH]; [reflexivity | exact IH]. Qed.

Lemma skipn_length_self {A : Type} (l : list A) : skipn (List.length l) l = [].
Proof. induction l as [|a l IH]; [reflexivity | exact IH]. Qed.

Section OptimizeProperties.

Context {P : Platform}.

Lemma optimize_rejects (E : env) (d : database) (req : request) :
  falsy_opt (body_prompt req) = true ->
  optimize E d req = (d, reply 400 (Message "prompt required")).
Proof. intro H. unfold optimize. rewrite H. reflexivity. Qed.

Lemma optimize_accepts (E : env) (d : database) (req : request) :
  falsy_opt (body_prompt req) = false ->
  let tb := tokens_before_of req in
  let ta := tokens_after_of req tb in
  let s := compute_savings E tb ta in
  let user_id := option_map fst (getUserFromToken d req) in
  let rowid := (optimizations_seq d + 1)%Z in
  optimize E d req =
  ({| users := users d;
      users_seq := users_seq d;
      optimizations := optimizations d ++
        [{| o_id := rowid; o_user_id := user_id;
            o_prompt := or_empty (body_prompt req);
            o_optimized_prompt := or_empty (body_optimized_prompt req);
            o_tokens_before := tb; o_tokens_after := ta;
            o_tokens_saved := s_tokens_saved s;
            o_co2_saved_kg := s_co2_saved_kg s |}];
      optimizations_seq := rowid |},
   reply 200 (OptimizeJson
     {| r_id := rowid; r_user_id := user_id;
        r_tokens_before := tb; r_tokens_after := ta;
        r_tokens_saved := s_tokens_saved s;
        r_kwh_saved := s_kwh_saved s;
        r_co2_saved_kg := s_co2_saved_kg s |})).
Proof. intro H. unfold optimize. rewrite H. reflexivity. Qed.


(** *** The default for tokens_after *)

Lemma floor_fifth_bounds (tb : Q) :
  0 <= tb ->
  (0 <= Qfloor (tb * (2 # 10)))%Z /\ inject_Z (Qfloor (tb * (2 # 10))) <= tb.
Proof.
  intro H. split.
  - change 0%Z with (Qfloor 0). apply Qfloor_resp_le. lra.
  - pose proof (Qfloor_le (tb * (2 # 10))). lra.
Qed.

Lemma default_tokens_after_nonneg (tb : Q) :
  0 <= tb ->
  default_tokens_after tb == tb - inject_Z (Qfloor (tb * (2 # 10))).
Proof.
  intro H. destruct (floor_fifth_bounds H) as [Hf Hle].
  unfold default_tokens_after.
  assert (H0 : 0 <= inject_Z (Qfloor (tb * (2 # 10)))).
  { change 0 with (inject_Z 0). rewrite <- Zle_Qle. exact Hf. }
  rewrite (Qmax_0_of_nonneg H0).
  apply Qmax_0_of_nonneg. lra.
Qed.

Lemma default_tokens_after_nonpos (tb : Q) :
  tb <= 0 -> default_tokens_after tb == 0.
Proof.
  intro H. unfold default_tokens_after.
  apply Qmax_0_of_nonpos.
  pose proof (Qmax_0_nonneg (inject_Z (Qfloor (tb * (2 # 10))))). lra.
Qed.

Lemma is_natural_estimate (s : jsstring) : is_natural (inject_Z (estimateTokens s)).
Proof.
  exists (Z.to_nat (estimateTokens s)).
  rewrite Z2Nat.id by apply estimateTokens_nonneg. reflexivity.
Qed.

Lemma is_natural_nonneg (q : Q) : is_natural q -> 0 <= q.
Proof.
  intros [n Hn]. rewrite Hn. change 0 with (inject_Z 0).
  rewrite <- Zle_Qle. lia.
Qed.

Lemma is_natural_default_tokens_after (tb : Q) :
  is_natural tb -> is_natural (default_tokens_after tb).
Proof.
  intros Hn. pose proof (is_natural_nonneg Hn) as H0.
  destruct (floor_fifth_bounds H0) as [Hf Hle].
  destruct Hn as [n Hn].
  exists (Z.to_nat (Z.of_nat n - Qfloor (tb * (2 # 10)))).
  rewrite (default_tokens_after_nonneg H0).
  assert (Hle' : inject_Z (Qfloor (tb * (2 # 10))) <= inject_Z (Z.of_nat n)) by lra.
  rewrite <- Zle_Qle in Hle'.
  rewrite Z2Nat.id by lia.
  unfold Z.sub. rewrite inject_Z_plus, inject_Z_opp. lra.
Qed.

Lemma tokens_before_of_cases (req : request) :
  (exists q, body_tokens_before req = JNumber q /\ tokens_before_of req = q)
  \/ (typeof_number (body_tokens_before req) = false
      /\ tokens_before_of req
         = inject_Z (estimateTokens (or_empty (body_prompt req)))).
Proof.
  unfold tokens_before_of.
  destruct (body_tokens_before req); try (right; split; reflexivity).
  left. eexists. split; reflexivity.
Qed.

Lemma tokens_after_of_cases (req : request) (tb : Q) :
  (exists q, body_tokens_after req = JNumber q /\ tokens_after_of req tb = q)
  \/ (typeof_number (body_tokens_after req) = false
      /\ falsy_opt (body_optimized_prompt req) = true
      /\ tokens_after_of req tb = default_tokens_after tb)
  \/ (typeof_number (body_tokens_after req) = false
      /\ falsy_opt (body_optimized_prompt req) = false
      /\ tokens_after_of req tb
         = inject_Z (estimateTokens (or_empty (body_optimized_prompt req)))).
Proof.
  unfold tokens_after_of.
  destruct (body_tokens_after req);
    try (right; destruct (falsy_opt (body_optimized_prompt req));
         [left | right]; repeat split; reflexivity).
  left. eexists. split; reflexivity.
Qed.

Lemma tokens_natural (req : request) :
  client_counts_natural req ->
  is_natural (tokens_before_of req)
  /\ is_natural (tokens_after_of req (tokens_before_of req)).
Proof.
  intros [Hb Ha].
  assert (Hnb : is_natural (tokens_before_of req)).
  { destruct (tokens_before_of_cases req) as [(q & Hq & ->) | (_ & ->)].
    - apply Hb. exact Hq.
    - apply is_natural_estimate. }
  split; [exact Hnb|].
  destruct (tokens_after_of_cases req (tokens_before_of req))
    as [(q & Hq & ->) | [(_ & _ & ->) | (_ & _ & ->)]].
  - apply Ha. exact Hq.
  - apply is_natural_default_tokens_after. exact Hnb.
  - apply is_natural_estimate.
Qed.

(** *** Steps of the server and the optimizations table *)

Lemma handle_optimizations (E : env) (ep : endpoint) (d : database) (req : request) :
  (optimizations (fst (handle E ep d req)) = optimizations d
   /\ optimizations_seq (fst (handle E ep d req)) = optimizations_seq d)
  \/ (ep = POST_optimize /\ falsy_opt (body_prompt req) = false).
Proof.
  destruct ep; simpl; try (left; split; reflexivity).
  - left. unfold signup.
    destruct (falsy_opt (body_email req) || falsy_opt (body_password req));
      [split; reflexivity|].
    destruct (select_user_by_email d (or_empty (body_email req)));
      split; reflexivity.
  - left. unfold login.
    destruct (falsy_opt (body_email req) || falsy_opt (body_password req));
      [split; reflexivity|].
    destruct (select_user_by_email d (or_empty (body_email req)));
      [|split; reflexivity].
    destruct (negb _); split; reflexivity.
  - left. unfold me. destruct (getUserFromToken d req); split; reflexivity.
  - destruct (falsy_opt (body_prompt req)) eqn:Hp.
    + left. rewrite (optimize_rejects E d req Hp). split; reflexivity.
    + right. split; reflexivity.
Qed.

(** No handler changes or removes a stored record: the table only grows at
    its end. *)
Lemma handle_appends (E : env) (ep : endpoint) (d : database) (req : request) :
  optimizations (fst (handle E ep d req))
  = optimizations d ++ new_rows d (fst (handle E ep d req)).
Proof.
  unfold new_rows.
  destruct (handle_optimizations E ep d req) as [[H _] | [-> Hp]].
  - rewrite H, skipn_length_self, app_nil_r. reflexivity.
  - simpl handle. rewrite (optimize_accepts E d req Hp). simpl fst.
    simpl optimizations. rewrite skipn_length_app. reflexivity.
Qed.

Lemma reachable_derived_fields (E : env) (sent : request -> Prop) (d : database) :
  reachable E sent d -> Forall (derived_fields_ok E) (optimizations d).
Proof.
  induction 1 as [|d ep req Hr IH Hs]; [constructor|].
  destruct (handle_optimizations E ep d req) as [[H _] | [-> Hp]].
  - rewrite H. exact IH.
  - simpl handle. rewrite (optimize_accepts E d req Hp). simpl.
    apply Forall_app. split; [exact IH|].
    constructor; [|constructor].
    unfold derived_fields_ok, compute_savings. simpl. split; reflexivity.
Qed.

Lemma reachable_counts_natural (E : env) (d : database) :
  reachable E client_counts_natural d ->
  Forall counts_natural (optimizations d).
Proof.
  induction 1 as [|d ep req Hr IH Hs]; [constructor|].
  destruct (handle_optimizations E ep d req) as [[H _] | [-> Hp]].
  - rewrite H. exact IH.
  - simpl handle. rewrite (optimize_accepts E d req Hp). simpl.
    apply Forall_app. split; [exact IH|].
    constructor; [|constructor].
    unfold counts_natural. simpl. apply tokens_natural. exact Hs.
Qed.


End OptimizeProperties.

(** *** The handler on counts that may be infinite *)



Lemma num_default_after_finite (tb : Q) :
  num_default_after (Fin tb) = Fin (default_tokens_after tb).
Proof. reflexivity. Qed.


Section OptimizeClaims.

Context {P : Platform}.


(** C3 (amended): in every store the server can reach, whatever the clients
    sent, each stored record has tokens_saved = max(0, tokens_before -
    tokens_after) and co2_saved_kg = tokens_saved * (0.0003/1000) * grid
    intensity, and no endpoint changes or removes a stored record.  The two
    counts are non-negative integers when every count the clients supplied
    was one; a count a client supplies, tokens_before or tokens_after, is
    stored as it came in the record the request writes. *)
Theorem stored_records_invariant (E : env) (d : database) :
  reachable E any_request d ->
  Forall (derived_fields_ok E) (optimizations d)
  /\ (forall ep req,
        exists added,
          optimizations (fst (handle E ep d req)) = optimizations d ++ added)
  /\ (reachable E client_counts_natural d ->
      Forall counts_natural (optimizations d))
  /\ (forall req row,
        In row (new_rows d (fst (optimize E d req))) ->
        (forall q, body_tokens_before req = JNumber q -> o_tokens_before row = q)
        /\ (forall q, body_tokens_after req = JNumber q -> o_tokens_after row = q)).
Proof.
  intro Hr. split; [exact (reachable_derived_fields Hr)|].
  split; [intros ep req; eexists; apply handle_appends|].
  split; [apply reachable_counts_natural|].
  intros req row.
  destruct (falsy_opt (body_prompt req)) eqn:Hp.
  - rewrite (optimize_rejects E d req Hp). unfold new_rows. simpl.
    rewrite skipn_length_self. intros [].
  - rewrite (optimize_accepts E d req Hp).
    unfold new_rows. simpl. rewrite skipn_length_app.
    intros [<- | []]. simpl. split; intros q Hq.
    + unfold tokens_before_of. rewrite Hq. reflexivity.
    + unfold tokens_after_of. rewrite Hq. reflexivity.
Qed.


(** C9 (amended): for a request with a prompt, no numeric tokens_after and
    no (or an empty) optimized_prompt, and a tokens_before that is not
    negative, as every estimated one is, the stored tokens_after is
    tokens_before - floor(0.2 * tokens_before) and the stored tokens_saved is
    floor(0.2 * tokens_before), which is positive from tokens_before = 5 on. *)
Theorem default_saving_is_a_fifth (E : env) (d : database) (req : request) :
  falsy_opt (body_prompt req) = false ->
  typeof_number (body_tokens_after req) = false ->
  falsy_opt (body_optimized_prompt req) = true ->
  (typeof_number (body_tokens_before req) = false -> 0 <= tokens_before_of req)
  /\ (0 <= tokens_before_of req ->
      exists row,
        new_rows d (fst (optimize E d req)) = [row]
        /\ o_tokens_before row = tokens_before_of req
        /\ o_tokens_after row
           == o_tokens_before row
              - inject_Z (Qfloor (o_tokens_before row * (2 # 10)))
        /\ o_tokens_saved row
           == inject_Z (Qfloor (o_tokens_before row * (2 # 10)))
        /\ (5 <= o_tokens_before row -> 1 <= o_tokens_saved row)).
Proof.
  intros Hp Ht Ho. split.
  { intros Hb. destruct (tokens_before_of_cases req) as [(q & Hq & _) | (_ & ->)].
    - rewrite Hq in Hb. discriminate.
    - apply is_natural_nonneg. apply is_natural_estimate. }
  intro H0. rewrite (optimize_accepts E d req Hp).
  unfold new_rows. simpl. rewrite skipn_length_app.
  eexists. split; [reflexivity|]. simpl.
  split; [reflexivity|].
  set (tb := tokens_before_of req) in *.
  assert (Ha : tokens_after_of req tb = default_tokens_after tb).
  { destruct (tokens_after_of_cases req tb)
      as [(q & Hq & _) | [(_ & _ & H) | (_ & Hf & _)]].
    - rewrite Hq in Ht. discriminate.
    - exact H.
    - congruence. }
  rewrite Ha.
  pose proof (default_tokens_after_nonneg H0) as Hd. fold tb in Hd.
  destruct (floor_fifth_bounds H0) as [Hf Hle]. fold tb in Hf, Hle.
  assert (Hf0 : 0 <= inject_Z (Qfloor (tb * (2 # 10)))).
  { change 0 with (inject_Z 0). rewrite <- Zle_Qle. exact Hf. }
  assert (Hs : Qmax 0 (tb - default_tokens_after tb)
               == inject_Z (Qfloor (tb * (2 # 10)))).
  { rewrite Qmax_0_of_nonneg; lra. }
  split; [exact Hd|]. split; [exact Hs|].
  intro H5. rewrite Hs.
  change 1 with (inject_Z 1). rewrite <- Zle_Qle.
  change 1%Z with (Qfloor 1). apply Qfloor_resp_le. lra.
Qed.

End OptimizeClaims.

(** ** Accounts and sessions *)

Lemma jsstring_eqb_eq (a b : jsstring) : jsstring_eqb a b = true <-> a = b.
Proof.
  revert b. induction a as [|x a IH]; intros [|y b]; simpl;
    try (split; [discriminate | discriminate]); [split; reflexivity|].
  rewrite andb_true_iff, N.eqb_eq, IH.
  split; [intros [-> ->]; reflexivity | intro H; inversion H; split; reflexivity].
Qed.

(** *** Emails as SQLite holds them *)

Lemma sqlite_text_plain (c : code_unit) (r : jsstring) :
  is_high_surrogate c = false -> is_low_surrogate c = false ->
  sqlite_text (c :: r) = c :: sqlite_text r.
Proof. intros Hh Hl. simpl. rewrite Hh, Hl. reflexivity. Qed.

Lemma sqlite_text_pair (c l : code_unit) (r : jsstring) :
  is_high_surrogate c = true -> is_low_surrogate l = true ->
  sqlite_text (c :: l :: r) = c :: l :: sqlite_text r.
Proof. intros Hh Hl. simpl. rewrite Hh, Hl. reflexivity. Qed.

Lemma sqlite_text_replacement (r : jsstring) :
  sqlite_text (REPLACEMENT :: r) = REPLACEMENT :: sqlite_text r.
Proof. apply sqlite_text_plain; reflexivity. Qed.

Lemma sqlite_text_nil_iff (s : jsstring) : sqlite_text s = [] <-> s = [].
Proof.
  split; [|intros ->; reflexivity].
  destruct s as [|c r]; [reflexivity|]. simpl.
  destruct (is_high_surrogate c).
  - destruct r as [|l r']; [discriminate|].
    destruct (is_low_surrogate l); discriminate.
  - destruct (is_low_surrogate c); discriminate.
Qed.

Lemma sqlite_text_idempotent_upto (n : nat) (s : jsstring) :
  (List.length s <= n)%nat -> sqlite_text (sqlite_text s) = sqlite_text s.
Proof.
  revert s. induction n as [|n IH]; intros s Hn.
  - destruct s; [reflexivity | simpl in Hn; lia].
  - destruct s as [|c r]; [reflexivity|]. simpl in Hn.
    destruct (is_high_surrogate c) eqn:Hh.
    + destruct r as [|l r'].
      * simpl. rewrite Hh. reflexivity.
      * destruct (is_low_surrogate l) eqn:Hl.
        -- rewrite (@sqlite_text_pair c l r' Hh Hl), (@sqlite_text_pair c l _ Hh Hl).
           rewrite IH by (simpl in Hn; lia). reflexivity.
        -- assert (Hs : sqlite_text (c :: l :: r') = REPLACEMENT :: sqlite_text (l :: r')).
           { simpl. rewrite Hh, Hl. reflexivity. }
           rewrite Hs, sqlite_text_replacement, IH by lia. reflexivity.
    + destruct (is_low_surrogate c) eqn:Hl.
      * assert (Hs : sqlite_text (c :: r) = REPLACEMENT :: sqlite_text r).
        { simpl. rewrite Hh, Hl. reflexivity. }
        rewrite Hs, sqlite_text_replacement, IH by lia. reflexivity.
      * rewrite (@sqlite_text_plain c r Hh Hl), (@sqlite_text_plain c _ Hh Hl).
        rewrite IH by lia. reflexivity.
Qed.

Lemma sqlite_text_idempotent (s : jsstring) :
  sqlite_text (sqlite_text s) = sqlite_text s.
Proof. apply (@sqlite_text_idempotent_upto (List.length s) s). apply Nat.le_refl. Qed.

Section FullAccountSteps.

Context {P : Platform}.

Lemma select_user_by_bound_email_some (d : database) (email : jsstring) (row : user_row) :
  select_user_by_bound_email d email = Some row ->
  In row (users d) /\ u_email row = sqlite_text email.
Proof.
  intro H. apply find_some in H. destruct H as [Hin He].
  split; [exact Hin | apply jsstring_eqb_eq; exact He].
Qed.

Lemma select_user_by_bound_email_registered (d : database) (email : jsstring)
    (existing : user_row) :
  In existing (users d) ->
  sqlite_text email = u_email existing ->
  exists row, select_user_by_bound_email d email = Some row.
Proof.
  intros Hin He. unfold select_user_by_bound_email.
  destruct (find _ (users d)) as [row|] eqn:Hf; [eexists; reflexivity|].
  pose proof (find_none _ _ Hf _ Hin) as Hn. simpl in Hn.
  assert (jsstring_eqb (u_email existing) (sqlite_text email) = true)
    by (apply jsstring_eqb_eq; symmetry; exact He).
  congruence.
Qed.

Lemma select_user_by_bound_email_unregistered (d : database) (email : jsstring) :
  (forall row, In row (users d) -> u_email row <> sqlite_text email) ->
  select_user_by_bound_email d email = None.
Proof.
  intro H. unfold select_user_by_bound_email.
  destruct (find _ (users d)) as [row|] eqn:Hf; [|reflexivity].
  apply find_some in Hf. destruct Hf as [Hin He].
  apply jsstring_eqb_eq in He. exfalso. exact (H row Hin He).
Qed.

(** The cases of the signup handler, in the order of its tests. *)
Lemma signup_full_cases (d : database) (b : auth_body) :
  let email := or_empty (a_email b) in
  (falsy_opt (a_email b) || falsy_val (a_password b) = true
   /\ signup_full d b = (d, reply 400 (Message "Email and password required")))
  \/ (falsy_opt (a_email b) || falsy_val (a_password b) = false
      /\ (exists row, select_user_by_bound_email d email = Some row)
      /\ signup_full d b = (d, reply 409 (Message "Email already in use")))
  \/ (falsy_opt (a_email b) || falsy_val (a_password b) = false
      /\ select_user_by_bound_email d email = None
      /\ (forall pw, a_password b <> JString pw)
      /\ signup_full d b = (d, reply 500 (Message "Server error")))
  \/ (falsy_opt (a_email b) || falsy_val (a_password b) = false
      /\ select_user_by_bound_email d email = None
      /\ exists pw,
           a_password b = JString pw
           /\ signup_full d b =
              ({| users := users d ++
                    [{| u_id := (users_seq d + 1)%Z;
                        u_email := sqlite_text email;
                        u_password_hash := bcrypt_hash pw |}];
                  users_seq := (users_seq d + 1)%Z;
                  optimizations := optimizations d;
                  optimizations_seq := optimizations_seq d |},
               {| status := 200;
                  body := UserJson (Some ((users_seq d + 1)%Z, email));
                  cookie := SetToken (jwt_sign (users_seq d + 1)%Z email) |})).
Proof.
  intro email. subst email. unfold signup_full.
  destruct (falsy_opt (a_email b) || falsy_val (a_password b)) eqn:Hc;
    [left; split; reflexivity|]. right.
  destruct (select_user_by_bound_email d (or_empty (a_email b))) as [row|] eqn:Hs.
  { left. split; [reflexivity|]. split; [exists row; reflexivity | reflexivity]. }
  right.
  destruct (a_password b) as [| |bb|q|pw|] eqn:Hpw;
    try (left; split; [reflexivity|]; split; [reflexivity|];
         split; [intros pw0; discriminate | reflexivity]).
  right. split; [reflexivity|]. split; [reflexivity|].
  exists pw. split; reflexivity.
Qed.

(** The cases of the login handler, in the order of its tests. *)
Lemma login_full_cases (d : database) (b : auth_body) :
  let email := or_empty (a_email b) in
  (falsy_opt (a_email b) || falsy_val (a_password b) = true
   /\ login_full d b = (d, reply 400 (Message "Email and password required")))
  \/ (falsy_opt (a_email b) || falsy_val (a_password b) = false
      /\ select_user_by_bound_email d email = None
      /\ login_full d b = (d, reply 401 (Message "Invalid credentials")))
  \/ (falsy_opt (a_email b) || falsy_val (a_password b) = false
      /\ (exists row, select_user_by_bound_email d email = Some row)
      /\ (forall pw, a_password b <> JString pw)
      /\ login_full d b = (d, reply 500 (Message "Server error")))
  \/ (falsy_opt (a_email b) || falsy_val (a_password b) = false
      /\ exists row pw,
           select_user_by_bound_email d email = Some row
           /\ a_password b = JString pw
           /\ bcrypt_compare pw (u_password_hash row) = false
           /\ login_full d b = (d, reply 401 (Message "Invalid credentials")))
  \/ (falsy_opt (a_email b) || falsy_val (a_password b) = false
      /\ exists row pw,
           select_user_by_bound_email d email = Some row
           /\ a_password b = JString pw
           /\ bcrypt_compare pw (u_password_hash row) = true
           /\ login_full d b =
              (d, {| status := 200;
                     body := UserJson (Some (u_id row, u_email row));
                     cookie := SetToken (jwt_sign (u_id row) (u_email row)) |})).
Proof.
  intro email. subst email. unfold login_full.
  destruct (falsy_opt (a_email b) || falsy_val (a_password b)) eqn:Hc;
    [left; split; reflexivity|]. right.
  destruct (select_user_by_bound_email d (or_empty (a_email b))) as [row|] eqn:Hs;
    [|left; split; [reflexivity|]; split; reflexivity]. right.
  destruct (a_password b) as [| |bb|q|pw|] eqn:Hpw;
    try (left; split; [reflexivity|]; split; [exists row; reflexivity|];
         split; [intros pw0; discriminate | reflexivity]).
  right.
  destruct (bcrypt_compare pw (u_password_hash row)) eqn:Hcmp; simpl.
  - right. split; [reflexivity|]. exists row, pw. repeat split; assumption.
  - left. split; [reflexivity|]. exists row, pw. repeat split; assumption.
Qed.

(** On the bodies of the typed handlers, credentials that are strings, with
    an email of well-formed UTF-16, the two descriptions of signup and login
    agree. *)
Lemma signup_full_agrees (d : database) (req : request) :
  sqlite_text (or_empty (body_email req)) = or_empty (body_email req) ->
  signup_full d (auth_body_of req) = signup d req.
Proof.
  intro Hw. unfold signup_full, signup, auth_body_of, select_user_by_bound_email,
    select_user_by_email. cbn [a_email a_password].
  rewrite Hw.
  destruct (body_password req) as [pw|]; simpl falsy_val; simpl falsy_opt.
  - destruct (falsy_opt (body_email req) || falsy_str pw); [reflexivity|].
    destruct (find _ (users d)); reflexivity.
  - rewrite orb_true_r. reflexivity.
Qed.

Lemma login_full_agrees (d : database) (req : request) :
  sqlite_text (or_empty (body_email req)) = or_empty (body_email req) ->
  login_full d (auth_body_of req) = login d req.
Proof.
  intro Hw. unfold login_full, login, auth_body_of, select_user_by_bound_email,
    select_user_by_email. cbn [a_email a_password].
  rewrite Hw.
  destruct (body_password req) as [pw|]; simpl falsy_val; simpl falsy_opt.
  - destruct (falsy_opt (body_email req) || falsy_str pw); [reflexivity|].
    destruct (find _ (users d)); reflexivity.
  - rewrite orb_true_r. reflexivity.
Qed.

End FullAccountSteps.

Section AccountClaims.

Context {P : Platform}.

(** C6 (amended): a signup whose email is exactly the email of a stored user
    row (compared as the text SQLite is handed, which is the string itself
    unless it has a surrogate without its pair) leaves the store as it was,
    no row added and none changed; it is answered 409 when the body carries a
    password, of whatever type, and 400 when the password is missing or
    empty.  409 is answered for no other reason, and every email the handler
    stores is not empty and is text as SQLite holds it. *)
Theorem signup_duplicate_email (d : database) (b : auth_body) (existing : user_row)
    (email : jsstring) :
  In existing (users d) ->
  a_email b = Some email ->
  email <> [] ->
  sqlite_text email = u_email existing ->
  fst (signup_full d b) = d
  /\ (falsy_val (a_password b) = false ->
      snd (signup_full d b) = reply 409 (Message "Email already in use"))
  /\ (falsy_val (a_password b) = true ->
      snd (signup_full d b) = reply 400 (Message "Email and password required"))
  /\ (forall d0 b0,
        status (snd (signup_full d0 b0)) = 409%Z ->
        exists row email0,
          In row (users d0) /\ a_email b0 = Some email0
          /\ u_email row = sqlite_text email0)
  /\ (forall d0 b0 row,
        In row (users (fst (signup_full d0 b0))) ->
        In row (users d0)
        \/ (u_email row <> [] /\ sqlite_text (u_email row) = u_email row)).
Proof.
  intros Hin He Hne Hm.
  destruct (@select_user_by_bound_email_registered d email existing Hin Hm) as [row Hrow].
  assert (Hf : falsy_opt (a_email b) = false).
  { rewrite He. destruct email; [contradiction Hne; reflexivity | reflexivity]. }
  assert (Hcases : forall pwf, falsy_val (a_password b) = pwf ->
            signup_full d b
            = (d, if pwf then reply 400 (Message "Email and password required")
                  else reply 409 (Message "Email already in use"))).
  { intros pwf Hpw. unfold signup_full. rewrite Hf, Hpw. simpl orb.
    destruct pwf; [reflexivity|]. rewrite He. simpl or_empty. rewrite Hrow.
    reflexivity. }
  split; [rewrite (Hcases _ eq_refl); reflexivity|].
  split; [intro Hpw; rewrite (Hcases _ Hpw); reflexivity|].
  split; [intro Hpw; rewrite (Hcases _ Hpw); reflexivity|].
  split.
  - intros d0 b0.
    destruct (signup_full_cases d0 b0)
      as [[_ ->] | [(Hc & (r & Hs) & ->) | [(_ & _ & _ & ->) | (_ & _ & pw & _ & ->)]]];
      try discriminate.
    intros _. apply select_user_by_bound_email_some in Hs. destruct Hs as [Hi Hmatch].
    apply orb_false_iff in Hc. destruct Hc as [Hc _].
    destruct (a_email b0) as [email0|]; [|discriminate].
    exists r, email0. split; [exact Hi|]. split; [reflexivity | exact Hmatch].
  - intros d0 b0 r.
    destruct (signup_full_cases d0 b0)
      as [[_ ->] | [(_ & _ & ->) | [(_ & _ & _ & ->) | (Hc & _ & pw & _ & ->)]]];
      try (left; assumption).
    cbn [fst users]. intro Hi. apply in_app_or in Hi.
    destruct Hi as [Hi | [<- | []]]; [left; exact Hi|]. right. cbn [u_email].
    split; [|apply sqlite_text_idempotent].
    intro H0. apply (proj1 (@sqlite_text_nil_iff _)) in H0.
    apply orb_false_iff in Hc. destruct Hc as [Hc _].
    destruct (a_email b0) as [[|c e]|]; simpl in *; congruence.
Qed.

(** C7: for passwords that are strings the login handler answers its two
    failures alike: an email that is not registered and a password that does
    not verify both get 401 'Invalid credentials' and no cookie.  A password
    that is present but no string (123, true) breaks this: bcrypt.compare,
    reached only once the row is found, throws, and the handler answers 500
    'Server error' for a registered email and 401 for one that is not, so the
    status tells whether the email is registered. *)
Theorem login_reveals_registered_email (d : database) (email : jsstring)
    (password : jsval) :
  email <> [] ->
  falsy_val password = false ->
  (forall pw, password <> JString pw) ->
  let res := snd (login_full d {| a_email := Some email; a_password := password |}) in
  ((exists row, In row (users d) /\ u_email row = sqlite_text email) ->
   res = reply 500 (Message "Server error"))
  /\ ((forall row, In row (users d) -> u_email row <> sqlite_text email) ->
      res = reply 401 (Message "Invalid credentials"))
  /\ (status res = 500%Z <-> exists row, In row (users d) /\ u_email row = sqlite_text email)
  /\ (forall d1 d2 b1 b2 pw1 pw2,
        falsy_opt (a_email b1) = false -> falsy_opt (a_email b2) = false ->
        a_password b1 = JString pw1 -> a_password b2 = JString pw2 ->
        pw1 <> [] -> pw2 <> [] ->
        select_user_by_bound_email d1 (or_empty (a_email b1)) = None ->
        (exists row,
           select_user_by_bound_email d2 (or_empty (a_email b2)) = Some row
           /\ bcrypt_compare pw2 (u_password_hash row) = false) ->
        snd (login_full d1 b1) = snd (login_full d2 b2)
        /\ snd (login_full d1 b1) = reply 401 (Message "Invalid credentials")).
Proof.
  intros Hne Hpw Hns res.
  assert (Hf : falsy_opt (Some email) = false).
  { destruct email; [contradiction Hne; reflexivity | reflexivity]. }
  assert (Hreg : (exists row, In row (users d) /\ u_email row = sqlite_text email) ->
                 res = reply 500 (Message "Server error")).
  { intros (row & Hin & Hm). subst res. unfold login_full. cbn [a_email a_password].
    rewrite Hf, Hpw. simpl orb. cbv iota. simpl or_empty.
    destruct (@select_user_by_bound_email_registered d email row Hin (eq_sym Hm))
      as [r ->].
    destruct password; try reflexivity. exfalso. exact (Hns s eq_refl). }
  assert (Hunreg : (forall row, In row (users d) -> u_email row <> sqlite_text email) ->
                   res = reply 401 (Message "Invalid credentials")).
  { intro Hno. subst res. unfold login_full. cbn [a_email a_password].
    rewrite Hf, Hpw. simpl orb. cbv iota. simpl or_empty.
    rewrite (@select_user_by_bound_email_unregistered d email Hno). reflexivity. }
  split; [exact Hreg|]. split; [exact Hunreg|]. split.
  - split; [|intro H; rewrite (Hreg H); reflexivity].
    intro Hs.
    destruct (select_user_by_bound_email d email) as [row|] eqn:Hsel.
    + apply select_user_by_bound_email_some in Hsel. exists row. exact Hsel.
    + exfalso. subst res. unfold login_full in Hs. cbn [a_email a_password] in Hs.
      rewrite Hf, Hpw in Hs. simpl orb in Hs. cbv iota in Hs. simpl or_empty in Hs.
      rewrite Hsel in Hs. discriminate.
  - intros d1 d2 b1 b2 pw1 pw2 He1 He2 Hp1 Hp2 Hn1 Hn2 Hnone (row & Hrow & Hcmp).
    unfold login_full. rewrite He1, He2, Hp1, Hp2.
    assert (F1 : falsy_val (JString pw1) = false)
      by (destruct pw1; [contradiction Hn1; reflexivity | reflexivity]).
    assert (F2 : falsy_val (JString pw2) = false)
      by (destruct pw2; [contradiction Hn2; reflexivity | reflexivity]).
    rewrite F1, F2. simpl orb. cbv iota.
    rewrite Hnone, Hrow, Hcmp. simpl. split; reflexivity.
Qed.

Lemma getUserFromToken_fails (d : database) (req : request) :
  token_fails d req -> getUserFromToken d req = None.
Proof.
  unfold token_fails, getUserFromToken.
  destruct (cookie_token req) as [token|]; [|reflexivity].
  intros [-> | [H | (id & H & Hs)]]; [reflexivity | |].
  - destruct (falsy_str token); [reflexivity|]. rewrite H. reflexivity.
  - destruct (falsy_str token); [reflexivity|]. rewrite H, Hs. reflexivity.
Qed.

Lemma getUserFromToken_none (d : database) (req : request) :
  getUserFromToken d req = None -> token_fails d req.
Proof.
  unfold token_fails, getUserFromToken.
  destruct (cookie_token req) as [token|]; [|trivial].
  destruct token as [|c t]; [left; reflexivity|]. simpl falsy_str. cbv iota.
  destruct (jwt_verify (c :: t)) as [id|]; [|right; left; reflexivity].
  destruct (select_user_by_id d id) eqn:Hs; [discriminate|].
  intros _. right. right. exists id. split; [reflexivity | exact Hs].
Qed.

(** C8: when the session token is absent, empty, rejected by jwt.verify
    (malformed, wrongly signed, expired) or names an id with no user row,
    getUserFromToken returns null; /api/auth/me then answers 200 with user
    null, a record written by /api/optimize has user_id null, and on every
    endpoint the store and the answer are those of the same request sent
    without a token, so the failure never shows as an error status. *)
Theorem token_failure_is_anonymous (E : env) (d : database) (req : request) :
  token_fails d req ->
  getUserFromToken d req = None
  /\ me d req = (d, reply 200 (UserJson None))
  /\ (forall ep, handle E ep d req = handle E ep d (without_token req))
  /\ (falsy_opt (body_prompt req) = false ->
      exists row o,
        new_rows d (fst (optimize E d req)) = [row]
        /\ o_user_id row = None
        /\ snd (optimize E d req) = reply 200 (OptimizeJson o)
        /\ r_user_id o = None).
Proof.
  intro Hf. pose proof (getUserFromToken_fails d req Hf) as Hn.
  split; [exact Hn|].
  split; [unfold me; rewrite Hn; reflexivity|].
  split.
  - intros ep. destruct ep; simpl; try reflexivity.
    + unfold me. rewrite Hn. reflexivity.
    + destruct (falsy_opt (body_prompt req)) eqn:Hp.
      * rewrite (optimize_rejects E d req Hp).
        rewrite (optimize_rejects E d (without_token req) Hp). reflexivity.
      * rewrite (optimize_accepts E d req Hp).
        rewrite (optimize_accepts E d (without_token req) Hp).
        rewrite Hn. reflexivity.
  - intro Hp. rewrite (optimize_accepts E d req Hp).
    unfold new_rows. simpl. rewrite skipn_length_app, Hn.
    eexists. eexists. repeat split.
Qed.

End AccountClaims.

(** ** Statistics *)

Lemma sum_co2_app (l l' : list optimization_row) :
  sum_co2 (l ++ l') == sum_co2 l + sum_co2 l'.
Proof.
  induction l as [|r l IH]; simpl.
  - ring.
  - rewrite IH. ring.
Qed.

Lemma sum_co2_in_row_order (rows : list optimization_row) (acc : Q) :
  fold_left Qplus (map o_co2_saved_kg rows) acc == acc + sum_co2 rows.
Proof.
  revert acc. induction rows as [|r rows IH]; intro acc; simpl.
  - ring.
  - rewrite IH. ring.
Qed.

Section StatsClaims.

Context {P : Platform}.

(** C4 (amended): the stats answer has users = number of user rows,
    prompts_optimized = number of optimization records, co2_saved_kg = the
    sum of co2_saved_kg over the records in row order (0 without records, and
    larger by the co2_saved_kg of each record an optimize adds),
    energy_saved_kwh = co2_saved_kg / grid intensity when the intensity is
    positive and 0 when it is negative (it is never 0), and impact_score =
    co2_saved_kg * 1000 + prompts_optimized * 0.1 + users * 1; the handler
    leaves the store as it is, so a second read answers the same. *)
Theorem stats_snapshot (E : env) (d : database) (req : request) :
  let GRID := GRID_KGCO2_PER_KWH E in
  let s := snapshot GRID d in
  stats E d req = (d, reply 200 (StatsJson s))
  /\ (forall req', snd (stats E (fst (stats E d req)) req') = snd (stats E d req))
  /\ st_users s = Z.of_nat (List.length (users d))
  /\ st_prompts_optimized s = Z.of_nat (List.length (optimizations d))
  /\ st_co2_saved_kg s == fold_left Qplus (map o_co2_saved_kg (optimizations d)) 0
  /\ (optimizations d = [] -> st_co2_saved_kg s == 0)
  /\ (forall req' o,
        snd (optimize E d req') = reply 200 (OptimizeJson o) ->
        st_co2_saved_kg (snapshot GRID (fst (optimize E d req')))
        == st_co2_saved_kg s + r_co2_saved_kg o)
  /\ ~ GRID == 0
  /\ (0 < GRID -> st_energy_saved_kwh s == st_co2_saved_kg s / GRID)
  /\ (GRID < 0 -> st_energy_saved_kwh s == 0)
  /\ st_co2_saved_g s == st_co2_saved_kg s * 1000
  /\ st_impact_score s
     == st_co2_saved_kg s * 1000
        + inject_Z (st_prompts_optimized s) * (1 # 10)
        + inject_Z (st_users s) * 1.
Proof.
  intros GRID s. subst s.
  split; [reflexivity|]. split; [reflexivity|].
  unfold snapshot. cbn [st_users st_prompts_optimized st_co2_saved_kg
                        st_co2_saved_g st_energy_saved_kwh st_impact_score].
  rewrite !Z_or_zero. unfold count_rows.
  split; [reflexivity|]. split; [reflexivity|].
  split; [rewrite Q_or_zero, sum_co2_in_row_order; ring|].
  split; [intros ->; reflexivity|].
  split.
  { intros req' o. destruct (falsy_opt (body_prompt req')) eqn:Hp.
    - rewrite (optimize_rejects E d req' Hp). discriminate.
    - rewrite (optimize_accepts E d req' Hp). cbn [fst snd optimizations].
      unfold reply. intro H. injection H as H. subst o. cbn [r_co2_saved_kg].
      rewrite !Q_or_zero, sum_co2_app. simpl sum_co2. ring. }
  split; [apply GRID_nonzero|].
  split.
  { intro Hg. apply Qgtb_true in Hg. rewrite Hg. reflexivity. }
  split.
  { intro Hg. assert (Hb : Qgtb GRID 0 = false) by (apply Qgtb_false; lra).
    rewrite Hb. reflexivity. }
  split; reflexivity.
Qed.

(** C10 (amended): both handlers read the grid intensity as parseFloat(env)
    || 0.45, so NaN (a value that is not a number, or none) and 0 give 0.45
    and every other number is taken as it is; the effective intensity is
    never 0.  The stats handler takes the branch that answers
    energy_saved_kwh = 0 exactly when the configured number is negative. *)
Theorem grid_intensity_fallback (E : env) :
  (parsed_GRID E = NaN -> GRID_KGCO2_PER_KWH E = 45 # 100)
  /\ (forall q, parsed_GRID E = Num q -> q == 0 -> GRID_KGCO2_PER_KWH E = 45 # 100)
  /\ (forall q, parsed_GRID E = Num q -> ~ q == 0 -> GRID_KGCO2_PER_KWH E = q)
  /\ ~ GRID_KGCO2_PER_KWH E == 0
  /\ (forall d req,
        stats E d req = (d, reply 200 (StatsJson (snapshot (GRID_KGCO2_PER_KWH E) d))))
  /\ (forall d req o,
        snd (optimize E d req) = reply 200 (OptimizeJson o) ->
        r_co2_saved_kg o = r_kwh_saved o * GRID_KGCO2_PER_KWH E)
  /\ (stats_takes_guard_branch E = true <->
      exists q, parsed_GRID E = Num q /\ q < 0)
  /\ (forall d, stats_takes_guard_branch E = true ->
        st_energy_saved_kwh (snapshot (GRID_KGCO2_PER_KWH E) d) = 0).
Proof.
  unfold GRID_KGCO2_PER_KWH at 1 2 3. unfold num_or.
  split; [intros ->; reflexivity|].
  split.
  { intros q -> Hq. apply Qeq_eq_bool in Hq. rewrite Hq. reflexivity. }
  split.
  { intros q -> Hq. destruct (Qeq_bool q 0) eqn:Hb; [|reflexivity].
    apply Qeq_bool_eq in Hb. contradiction. }
  split; [apply GRID_nonzero|].
  split; [reflexivity|].
  split.
  { intros d req o. destruct (falsy_opt (body_prompt req)) eqn:Hp.
    - rewrite (optimize_rejects E d req Hp). discriminate.
    - rewrite (optimize_accepts E d req Hp). simpl snd. unfold reply.
      intro H. injection H as H. subst o. reflexivity. }
  split.
  { unfold stats_takes_guard_branch. rewrite negb_true_iff, Qgtb_false.
    unfold GRID_KGCO2_PER_KWH, num_or.
    destruct (parsed_GRID E) as [|q].
    - split; [intro H; exfalso; revert H; apply Qlt_not_le; reflexivity|].
      intros (q & Hq & _). discriminate.
    - destruct (Qeq_bool q 0) eqn:Hb.
      + apply Qeq_bool_eq in Hb. split.
        * intro H. exfalso. revert H. apply Qlt_not_le. reflexivity.
        * intros (q' & Hq' & Hlt). injection Hq' as <-. lra.
      + split.
        * intro H. exists q. split; [reflexivity|].
          apply Qle_lt_or_eq in H. destruct H as [H | H]; [exact H|].
          apply Qeq_eq_bool in H. congruence.
        * intros (q' & Hq' & Hlt). injection Hq' as <-. lra. }
  intros d H. unfold stats_takes_guard_branch in H.
  rewrite negb_true_iff in H. unfold snapshot. simpl. rewrite H. reflexivity.
Qed.

End StatsClaims.

(** ** The handlers on concrete requests *)

Example signup_then_wrong_password :
  snd (signup (P := toy_platform) empty_db (auth_request "a@x.com" "pw1"))
  = {| status := 200; body := UserJson (Some (1%Z, lit "a@x.com"));
       cookie := SetToken [1%N] |}
  /\ status (snd (login (P := toy_platform) store_one_user
                    (auth_request "a@x.com" "wrongpw"))) = 401%Z.
Proof. split; reflexivity. Qed.

Example stats_after_10_6 :
  exists s,
    snd (stats default_env (store_after counts_10_6) blank_request)
    = reply 200 (StatsJson s)
    /\ st_prompts_optimized s = 1%Z
    /\ st_co2_saved_kg s == 4 * ((3 # 10000) / 1000) * (45 # 100).
Proof. eexists. split; [reflexivity|]. split; reflexivity. Qed.

Example prompt_only_estimate :
  estimateTokens (lit "the quick brown fox and a turtle") = 8%Z
  /\ map o_tokens_after (optimizations (store_after prompt_only)) = [7 # 1].
Proof. split; reflexivity. Qed.



Lemma stored_records_invariant_witness :
  reachable (P := toy_platform) default_env any_request (store_after counts_10_6)
  /\ Forall (derived_fields_ok default_env) (optimizations (store_after counts_10_6)).
Proof.
  assert (H : reachable (P := toy_platform) default_env any_request
                (store_after counts_10_6)).
  { unfold store_after. apply reachable_step; [apply reachable_init | exact I]. }
  split; [exact H|].
  exact (proj1 (@stored_records_invariant toy_platform default_env _ H)).
Defined.

(** A client that sends tokens_before = -5 gets it stored: the store is
    reachable and its record has a negative tokens_before, which is no
    natural number. *)
Lemma stored_negative_count_counterexample :
  reachable (P := toy_platform) default_env any_request (store_after negative_before)
  /\ body_tokens_before negative_before = JNumber (-5 # 1)
  /\ map o_tokens_before (optimizations (store_after negative_before)) = [-5 # 1]
  /\ ~ Forall counts_natural (optimizations (store_after negative_before)).
Proof.
  split.
  { unfold store_after. apply reachable_step; [apply reachable_init | exact I]. }
  split; [reflexivity|]. split; [reflexivity|].
  intro H. inversion H as [|r l [Hb _] _]; subst.
  apply is_natural_nonneg in Hb. vm_compute in Hb. apply Hb. reflexivity.
Qed.



(** With tokens_before and tokens_after both 1e400, read as Infinity, the
    saving is NaN, which the table refuses: the handler answers 500 and no
    record is written.  The same happens with tokens_before 1e400 alone,
    whose default tokens_after is NaN.  An infinite tokens_before with a
    finite tokens_after is stored, with an infinite saving. *)
Example infinite_counts_answer_500 :
  falsy_opt (ob_prompt infinite_counts) = false
  /\ optimize_outcome_of default_env infinite_counts = Failed500
  /\ num_default_after PosInf = NotANumber
  /\ optimize_outcome_of default_env infinite_before = Failed500
  /\ optimize_outcome_of default_env
       {| ob_prompt := Some (lit "p"); ob_optimized_prompt := None;
          ob_tokens_before := Some PosInf; ob_tokens_after := Some (Fin 6) |}
     = Inserted {| bv_tokens_before := PosInf; bv_tokens_after := Fin 6;
                   bv_tokens_saved := PosInf; bv_kwh_saved := PosInf;
                   bv_co2_saved_kg := PosInf |}.
Proof. repeat split. Qed.

Lemma default_saving_is_a_fifth_witness :
  falsy_opt (body_prompt prompt_only) = false
  /\ typeof_number (body_tokens_after prompt_only) = false
  /\ falsy_opt (body_optimized_prompt prompt_only) = true
  /\ 0 <= tokens_before_of prompt_only
  /\ exists row,
       new_rows empty_db (fst (optimize (P := toy_platform) default_env empty_db prompt_only))
       = [row]
       /\ o_tokens_saved row == inject_Z (Qfloor (o_tokens_before row * (2 # 10))).
Proof.
  assert (H1 : falsy_opt (body_prompt prompt_only) = false) by reflexivity.
  assert (H2 : typeof_number (body_tokens_after prompt_only) = false) by reflexivity.
  assert (H3 : falsy_opt (body_optimized_prompt prompt_only) = true) by reflexivity.
  assert (H4 : 0 <= tokens_before_of prompt_only) by (vm_compute; discriminate).
  repeat (split; [assumption|]).
  destruct (proj2 (@default_saving_is_a_fifth toy_platform default_env empty_db
                     prompt_only H1 H2 H3) H4) as (row & Hr & _ & _ & Hs & _).
  exists row. split; [exact Hr | exact Hs].
Defined.

(** With a prompt, tokens_before = -5 and neither tokens_after nor
    optimized_prompt, the stored tokens_after is 0 and tokens_saved is 0,
    where tokens_before - floor(0.2 * tokens_before) is -4 and
    floor(0.2 * tokens_before) is -1. *)
Lemma negative_before_counterexample :
  falsy_opt (body_prompt negative_before) = false
  /\ body_tokens_after negative_before = JUndefined
  /\ body_optimized_prompt negative_before = None
  /\ map o_tokens_before (optimizations (store_after negative_before)) = [-5 # 1]
  /\ map o_tokens_after (optimizations (store_after negative_before)) = [0 # 1]
  /\ map o_tokens_saved (optimizations (store_after negative_before)) = [0 # 1]
  /\ (-5 # 1) - inject_Z (Qfloor ((-5 # 1) * (2 # 10))) == -4 # 1
  /\ inject_Z (Qfloor ((-5 # 1) * (2 # 10))) == -1 # 1
  /\ ~ 0 # 1 == -4 # 1
  /\ ~ 0 # 1 == -1 # 1.
Proof.
  repeat (split; [reflexivity|]). split; discriminate.
Qed.

Lemma signup_duplicate_email_witness :
  In {| u_id := 1; u_email := lit "a@x.com"; u_password_hash := lit "pw1" |}
     (users store_one_user)
  /\ a_email (credentials "a@x.com" "pw2") = Some (lit "a@x.com")
  /\ signup_full (P := toy_platform) store_one_user (credentials "a@x.com" "pw2")
     = (store_one_user, reply 409 (Message "Email already in use")).
Proof.
  assert (H1 : In {| u_id := 1; u_email := lit "a@x.com"; u_password_hash := lit "pw1" |}
                  (users store_one_user)) by (left; reflexivity).
  assert (H2 : a_email (credentials "a@x.com" "pw2") = Some (lit "a@x.com"))
    by reflexivity.
  assert (H3 : lit "a@x.com" <> []) by discriminate.
  assert (H4 : sqlite_text (lit "a@x.com")
               = u_email {| u_id := 1; u_email := lit "a@x.com";
                            u_password_hash := lit "pw1" |}) by reflexivity.
  split; [exact H1|]. split; [exact H2|].
  destruct (@signup_duplicate_email toy_platform store_one_user
              (credentials "a@x.com" "pw2") _ (lit "a@x.com") H1 H2 H3 H4)
    as (Hd & H409 & _).
  rewrite (surjective_pairing (signup_full store_one_user (credentials "a@x.com" "pw2"))).
  rewrite Hd, (H409 eq_refl). reflexivity.
Defined.

(** A signup that carries the email of a registered user and no password is
    answered 400, not 409; the table is unchanged. *)
Lemma duplicate_without_password_counterexample :
  map u_email (users store_one_user) = [lit "a@x.com"]
  /\ a_email (email_only "a@x.com") = Some (lit "a@x.com")
  /\ signup_full (P := toy_platform) store_one_user (email_only "a@x.com")
     = (store_one_user, reply 400 (Message "Email and password required"))
  /\ status (snd (signup_full (P := toy_platform) store_one_user (email_only "a@x.com")))
     <> 409%Z.
Proof.
  split; [reflexivity|]. split; [reflexivity|]. split; [reflexivity|]. discriminate.
Qed.

(** Two different emails that are each a surrogate without its pair are
    both stored as U+FFFD, so the second signup is answered 409. *)
Example lone_surrogates_collide :
  a_email lone_high <> a_email lone_low
  /\ map u_email (users store_lone_high) = [[REPLACEMENT]]
  /\ signup_full (P := toy_platform) store_lone_high lone_low
     = (store_lone_high, reply 409 (Message "Email already in use")).
Proof. split; [discriminate|]. split; reflexivity. Qed.

Lemma login_reveals_registered_email_witness :
  lit "a@x.com" <> []
  /\ falsy_val (JNumber 123) = false
  /\ snd (login_full (P := toy_platform) store_one_user (numeric_password "a@x.com"))
     = reply 500 (Message "Server error")
  /\ snd (login_full (P := toy_platform) store_one_user (numeric_password "b@x.com"))
     = reply 401 (Message "Invalid credentials").
Proof.
  assert (H1 : lit "a@x.com" <> []) by discriminate.
  assert (H1' : lit "b@x.com" <> []) by discriminate.
  assert (H2 : falsy_val (JNumber 123) = false) by reflexivity.
  assert (H3 : forall pw, JNumber 123 <> JString pw) by (intros pw; discriminate).
  split; [exact H1|]. split; [exact H2|]. split.
  - destruct (@login_reveals_registered_email toy_platform store_one_user
                (lit "a@x.com") (JNumber 123) H1 H2 H3) as (Hreg & _).
    apply Hreg.
    exists {| u_id := 1; u_email := lit "a@x.com"; u_password_hash := lit "pw1" |}.
    split; [left; reflexivity | reflexivity].
  - destruct (@login_reveals_registered_email toy_platform store_one_user
                (lit "b@x.com") (JNumber 123) H1' H2 H3) as (_ & Hunreg & _).
    apply Hunreg. intros row [<- | []]. discriminate.
Defined.

Lemma token_failure_is_anonymous_witness :
  token_fails (P := toy_platform) store_one_user
    (with_token (lit "not.a.token") prompt_only)
  /\ getUserFromToken (P := toy_platform) store_one_user
       (with_token (lit "not.a.token") prompt_only) = None.
Proof.
  assert (H : token_fails (P := toy_platform) store_one_user
                (with_token (lit "not.a.token") prompt_only))
    by (right; left; reflexivity).
  split; [exact H|].
  exact (proj1 (@token_failure_is_anonymous toy_platform default_env store_one_user
                  _ H)).
Defined.

(** A token that verifies but names a deleted or unknown id is anonymous too. *)
Example unknown_id_is_anonymous :
  jwt_verify (Platform := toy_platform) [7%N] = Some 7%Z
  /\ me (P := toy_platform) store_one_user (with_token [7%N] blank_request)
     = (store_one_user, reply 200 (UserJson None))
  /\ me (P := toy_platform) store_one_user (with_token [1%N] blank_request)
     = (store_one_user, reply 200 (UserJson (Some (1%Z, lit "a@x.com")))).
Proof. repeat split. Qed.

Lemma stats_snapshot_witness :
  0 < GRID_KGCO2_PER_KWH default_env
  /\ st_energy_saved_kwh (snapshot (GRID_KGCO2_PER_KWH default_env) (store_after counts_10_6))
     == st_co2_saved_kg (snapshot (GRID_KGCO2_PER_KWH default_env) (store_after counts_10_6))
        / GRID_KGCO2_PER_KWH default_env.
Proof.
  assert (H : 0 < GRID_KGCO2_PER_KWH default_env) by reflexivity.
  split; [exact H|].
  destruct (@stats_snapshot toy_platform default_env (store_after counts_10_6)
              blank_request)
    as (_ & _ & _ & _ & _ & _ & _ & _ & He & _).
  exact (He H).
Defined.

(** With GRID_KGCO2_PER_KWH=-1, after one optimize with the counts 10 and 6
    the stats answer has co2_saved_kg = -0.0000012 and energy_saved_kwh = 0,
    where co2_saved_kg / grid intensity is 0.0000012. *)
Lemma negative_grid_energy_counterexample :
  GRID_KGCO2_PER_KWH negative_grid = -1 # 1
  /\ exists s,
       snd (stats negative_grid store_negative_grid blank_request)
       = reply 200 (StatsJson s)
       /\ st_prompts_optimized s = 1%Z
       /\ st_co2_saved_kg s == - (12 # 10000000)
       /\ st_energy_saved_kwh s == 0
       /\ st_co2_saved_kg s / GRID_KGCO2_PER_KWH negative_grid == 12 # 10000000
       /\ ~ st_energy_saved_kwh s
            == st_co2_saved_kg s / GRID_KGCO2_PER_KWH negative_grid.
Proof.
  split; [reflexivity|].
  eexists. split; [reflexivity|]. split; [reflexivity|].
  split; [reflexivity|]. split; [reflexivity|]. split; [reflexivity|].
  vm_compute. discriminate.
Qed.

Lemma grid_intensity_fallback_witness :
  parsed_GRID {| parsed_GRID := Num 0 |} = Num 0
  /\ GRID_KGCO2_PER_KWH {| parsed_GRID := Num 0 |} = 45 # 100.
Proof.
  split; [reflexivity|].
  destruct (@grid_intensity_fallback toy_platform {| parsed_GRID := Num 0 |})
    as (_ & H & _).
  apply (H 0); reflexivity.
Defined.

(** With the variable set to -1 the effective intensity is -1, not 0, and
    the stats handler takes the branch that answers energy_saved_kwh = 0,
    on a store whose co2_saved_kg is not 0. *)
Lemma negative_grid_counterexample :
  GRID_KGCO2_PER_KWH negative_grid = -1 # 1
  /\ stats_takes_guard_branch negative_grid = true
  /\ exists s,
       snd (stats negative_grid (store_after counts_10_6) blank_request)
       = reply 200 (StatsJson s)
       /\ st_energy_saved_kwh s = 0
       /\ ~ st_co2_saved_kg s == 0.
Proof.
  split; [reflexivity|]. split; [reflexivity|].
  eexists. split; [reflexivity|]. split; [reflexivity|].
  vm_compute. discriminate.
Qed.

(** ** The users table keeps its emails distinct *)

Section UsersInvariant.

Context {P : Platform}.

Lemma select_user_by_email_none (d : database) (email : jsstring) :
  select_user_by_email d email = None -> ~ In email (map u_email (users d)).
Proof.
  intros Hn Hin. apply in_map_iff in Hin. destruct Hin as (u & He & Hin).
  pose proof (find_none _ _ Hn _ Hin) as Hf. simpl in Hf.
  assert (jsstring_eqb (u_email u) email = true) by (apply jsstring_eqb_eq; exact He).
  congruence.
Qed.

Lemma handle_users (E : env) (ep : endpoint) (d : database) (req : request) :
  users (fst (handle E ep d req)) = users d
  \/ (select_user_by_email d (or_empty (body_email req)) = None
      /\ exists row,
           u_email row = or_empty (body_email req)
           /\ users (fst (handle E ep d req)) = users d ++ [row]).
Proof.
  destruct ep; simpl; try (left; reflexivity).
  - unfold signup.
    destruct (falsy_opt (body_email req) || falsy_opt (body_password req));
      [left; reflexivity|].
    destruct (select_user_by_email d (or_empty (body_email req))) eqn:Hs;
      [left; reflexivity|].
    right. split; [reflexivity|]. simpl. eexists. split; [|reflexivity]. reflexivity.
  - left. unfold login.
    destruct (falsy_opt (body_email req) || falsy_opt (body_password req));
      [reflexivity|].
    destruct (select_user_by_email d (or_empty (body_email req))); [|reflexivity].
    destruct (negb _); reflexivity.
  - left. unfold me. destruct (getUserFromToken d req); reflexivity.
  - left. unfold optimize. destruct (falsy_opt (body_prompt req)); reflexivity.
Qed.

Lemma reachable_emails_distinct (E : env) (sent : request -> Prop) (d : database) :
  reachable E sent d -> NoDup (map u_email (users d)).
Proof.
  induction 1 as [|d ep req Hr IH Hs]; [constructor|].
  destruct (handle_users E ep d req) as [-> | (Hn & row & He & ->)]; [exact IH|].
  rewrite map_app. simpl map. apply NoDup_app; [exact IH | | ].
  - constructor; [intros [] | constructor].
  - intros a Ha [<- | []]. rewrite He in Ha.
    exact (select_user_by_email_none d _ Hn Ha).
Qed.

End UsersInvariant.

(** * Further properties of the server *)

Unset Implicit Arguments.

Lemma rowids_in_sequence_nil : rowids_in_sequence [] 0.
Proof. split; reflexivity. Qed.

Lemma rowids_in_sequence_snoc (ids : list Z) (last : Z) :
  rowids_in_sequence ids last ->
  rowids_in_sequence (ids ++ [(last + 1)%Z]) (last + 1).
Proof.
  intros [Hids Hlast]. unfold rowids_in_sequence.
  rewrite length_app. simpl List.length. rewrite seq_app, map_app.
  simpl. rewrite <- Hids. subst last. split.
  - f_equal. f_equal. lia.
  - lia.
Qed.


Lemma find_app_first {A : Type} (f : A -> bool) (l l' : list A) (x : A) :
  find f l = Some x -> find f (l ++ l') = Some x.
Proof.
  induction l as [|a l IH]; simpl; [discriminate|].
  destruct (f a); [trivial | exact IH].
Qed.


Section ServerSteps.

Context {P : Platform}.

Lemma signup_rejects (d : database) (req : request) :
  ~ credentials_present req ->
  signup d req = (d, reply 400 (Message "Email and password required")).
Proof.
  intro H. unfold signup.
  destruct (falsy_opt (body_email req)) eqn:H1; [reflexivity|].
  destruct (falsy_opt (body_password req)) eqn:H2; [reflexivity|].
  exfalso. apply H. split; assumption.
Qed.

Lemma signup_conflicts (d : database) (req : request) (row : user_row) :
  credentials_present req ->
  select_user_by_email d (or_empty (body_email req)) = Some row ->
  signup d req = (d, reply 409 (Message "Email already in use")).
Proof.
  intros [H1 H2] Hs. unfold signup. rewrite H1, H2, Hs. reflexivity.
Qed.

Lemma signup_creates (d : database) (req : request) :
  credentials_present req ->
  select_user_by_email d (or_empty (body_email req)) = None ->
  let email := or_empty (body_email req) in
  let rowid := (users_seq d + 1)%Z in
  signup d req =
  ({| users := users d ++
        [{| u_id := rowid; u_email := email;
            u_password_hash := bcrypt_hash (or_empty (body_password req)) |}];
      users_seq := rowid;
      optimizations := optimizations d;
      optimizations_seq := optimizations_seq d |},
   {| status := 200; body := UserJson (Some (rowid, email));
      cookie := SetToken (jwt_sign rowid email) |}).
Proof.
  intros [H1 H2] Hs. unfold signup. rewrite H1, H2, Hs. reflexivity.
Qed.

Lemma credentials_present_dec (req : request) :
  credentials_present req \/ ~ credentials_present req.
Proof.
  unfold credentials_present.
  destruct (falsy_opt (body_email req)); destruct (falsy_opt (body_password req));
    try (left; split; reflexivity); right; intros [? ?]; discriminate.
Qed.

(** One step of the server on the two tables: each is left alone or gets one
    row at its end, under the next rowid. *)
Lemma handle_users_step (E : env) (ep : endpoint) (d : database) (req : request) :
  let d' := fst (handle E ep d req) in
  (users d' = users d /\ users_seq d' = users_seq d)
  \/ (ep = POST_signup
      /\ credentials_present req
      /\ select_user_by_email d (or_empty (body_email req)) = None
      /\ users d' = users d ++
           [{| u_id := (users_seq d + 1)%Z;
               u_email := or_empty (body_email req);
               u_password_hash := bcrypt_hash (or_empty (body_password req)) |}]
      /\ users_seq d' = (users_seq d + 1)%Z).
Proof.
  destruct ep; simpl; try (left; split; reflexivity).
  - destruct (credentials_present_dec req) as [Hc | Hc].
    + destruct (select_user_by_email d (or_empty (body_email req))) as [row|] eqn:Hs.
      * left. rewrite (signup_conflicts d req row Hc Hs). split; reflexivity.
      * right. rewrite (signup_creates d req Hc Hs). simpl.
        repeat split; try assumption; apply Hc.
    + left. rewrite (signup_rejects d req Hc). split; reflexivity.
  - left. unfold login.
    destruct (falsy_opt (body_email req) || falsy_opt (body_password req));
      [split; reflexivity|].
    destruct (select_user_by_email d (or_empty (body_email req)));
      [|split; reflexivity].
    destruct (negb _); split; reflexivity.
  - left. unfold me. destruct (getUserFromToken d req); split; reflexivity.
  - left. unfold optimize. destruct (falsy_opt (body_prompt req)); split; reflexivity.
Qed.

Lemma handle_optimizations_step (E : env) (ep : endpoint) (d : database) (req : request) :
  let d' := fst (handle E ep d req) in
  (optimizations d' = optimizations d /\ optimizations_seq d' = optimizations_seq d)
  \/ (ep = POST_optimize
      /\ falsy_opt (body_prompt req) = false
      /\ exists row,
           optimizations d' = optimizations d ++ [row]
           /\ o_id row = (optimizations_seq d + 1)%Z
           /\ o_user_id row = option_map fst (getUserFromToken d req)
           /\ optimizations_seq d' = (optimizations_seq d + 1)%Z).
Proof.
  destruct (handle_optimizations E ep d req) as [H | [-> Hp]]; [left; exact H|].
  right. split; [reflexivity|]. split; [exact Hp|].
  simpl handle. rewrite (optimize_accepts E d req Hp). simpl.
  eexists. repeat split.
Qed.

(** Rowids are handed out as 1, 2, 3, ... in both tables. *)
Lemma reachable_rowids (E : env) (sent : request -> Prop) (d : database) :
  reachable E sent d ->
  rowids_in_sequence (map u_id (users d)) (users_seq d)
  /\ rowids_in_sequence (map o_id (optimizations d)) (optimizations_seq d).
Proof.
  induction 1 as [|d ep req Hr [IHu IHo] Hs];
    [split; apply rowids_in_sequence_nil|].
  split.
  - destruct (handle_users_step E ep d req) as [[-> ->] | (_ & _ & _ & -> & ->)];
      [exact IHu|].
    rewrite map_app. simpl map. apply rowids_in_sequence_snoc. exact IHu.
  - destruct (handle_optimizations_step E ep d req)
      as [[-> ->] | (_ & _ & row & -> & Hid & _ & ->)]; [exact IHo|].
    rewrite map_app. simpl map. rewrite Hid.
    apply rowids_in_sequence_snoc. exact IHo.
Qed.

Lemma getUserFromToken_some (d : database) (req : request) (id : Z) (email : jsstring) :
  getUserFromToken d req = Some (id, email) ->
  exists row, In row (users d) /\ u_id row = id /\ u_email row = email.
Proof.
  unfold getUserFromToken.
  destruct (cookie_token req) as [token|]; [|discriminate].
  destruct (falsy_str token); [discriminate|].
  destruct (jwt_verify token) as [pid|]; [|discriminate].
  destruct (select_user_by_id d pid) as [row|] eqn:Hs; [|discriminate].
  intro H. injection H as <- <-.
  apply find_some in Hs. exists row. split; [apply Hs|]. split; reflexivity.
Qed.

(** The foreign key of the optimizations table holds without the engine
    enforcing it: a stored user_id is always the id of a user row. *)
Lemma reachable_user_ids_resolve (E : env) (sent : request -> Prop) (d : database) :
  reachable E sent d -> user_ids_resolve d.
Proof.
  unfold user_ids_resolve.
  induction 1 as [|d ep req Hr IH Hs]; [constructor|].
  assert (Hgrow : forall id, In id (map u_id (users d)) ->
                  In id (map u_id (users (fst (handle E ep d req))))).
  { intros id Hin.
    destruct (handle_users_step E ep d req) as [[-> _] | (_ & _ & _ & -> & _)];
      [exact Hin|].
    rewrite map_app. apply in_or_app. left. exact Hin. }
  assert (Hold : Forall (fun r => match o_user_id r with
                                  | None => True
                                  | Some id =>
                                      In id (map u_id (users (fst (handle E ep d req))))
                                  end) (optimizations d)).
  { eapply Forall_impl; [|exact IH]. intros r Hrow. simpl in Hrow.
    destruct (o_user_id r); [apply Hgrow; exact Hrow | exact I]. }
  destruct (handle_optimizations_step E ep d req)
    as [[-> _] | (_ & _ & row & -> & _ & Huid & _)]; [exact Hold|].
  apply Forall_app. split; [exact Hold|].
  constructor; [|constructor]. rewrite Huid.
  destruct (getUserFromToken d req) as [[id email]|] eqn:Hu; [|exact I].
  simpl. apply Hgrow.
  destruct (getUserFromToken_some d req id email Hu) as (urow & Hin & <- & _).
  apply in_map. exact Hin.
Qed.

End ServerSteps.

Section ServerExtras.

Context {P : Platform}.

Lemma run_app (E : env) (d : database) (t1 t2 : list (endpoint * request)) :
  run E d (t1 ++ t2) = run E (run E d t1) t2.
Proof.
  revert d. induction t1 as [|[ep req] t1 IH]; intro d; [reflexivity|].
  simpl. apply IH.
Qed.

Lemma run_reachable (E : env) (d : database) (trace : list (endpoint * request)) :
  reachable E any_request d -> reachable E any_request (run E d trace).
Proof.
  revert d. induction trace as [|[ep req] t IH]; intros d Hr; [exact Hr|].
  simpl. apply IH. apply reachable_step; [exact Hr | exact I].
Qed.

(** Rows are never removed from the users table, nor changed. *)
Lemma run_users_prefix (E : env) (d : database) (trace : list (endpoint * request)) :
  exists later, users (run E d trace) = users d ++ later.
Proof.
  revert d. induction trace as [|[ep req] t IH]; intro d.
  - exists []. simpl. rewrite app_nil_r. reflexivity.
  - simpl. destruct (IH (fst (handle E ep d req))) as [later Hl].
    destruct (handle_users_step E ep d req) as [[Hu _] | (_ & _ & _ & Hu & _)].
    + exists later. rewrite Hl. f_equal. exact Hu.
    + eexists. rewrite Hl. simpl in Hu. rewrite Hu, <- app_assoc. reflexivity.
Qed.

Lemma run_optimizations_prefix (E : env) (d : database)
    (trace : list (endpoint * request)) :
  exists later, optimizations (run E d trace) = optimizations d ++ later.
Proof.
  revert d. induction trace as [|[ep req] t IH]; intro d.
  - exists []. simpl. rewrite app_nil_r. reflexivity.
  - simpl. destruct (IH (fst (handle E ep d req))) as [later Hl].
    rewrite Hl, (handle_appends E ep d req), <- app_assoc.
    eexists. reflexivity.
Qed.




(** X1: in every store the server can reach, the ids of the user rows are 1,
    2, ..., n in insertion order, as are those of the optimization records,
    and each AUTOINCREMENT counter is the number of rows of its table. *)
Theorem rowids_consecutive (E : env) (sent : request -> Prop) (d : database) :
  reachable E sent d ->
  map u_id (users d) = map Z.of_nat (seq 1 (List.length (users d)))
  /\ users_seq d = Z.of_nat (List.length (users d))
  /\ map o_id (optimizations d) = map Z.of_nat (seq 1 (List.length (optimizations d)))
  /\ optimizations_seq d = Z.of_nat (List.length (optimizations d)).
Proof.
  intro Hr. destruct (reachable_rowids E sent d Hr) as [[H1 H2] [H3 H4]].
  rewrite length_map in H1, H2, H3, H4.
  repeat split; assumption.
Qed.

(** X2: in every reachable store no two user rows have the same email, no
    email is empty, and every stored password_hash is bcrypt.hash of a
    non-empty password: the SELECT before the INSERT keeps the UNIQUE
    constraint from ever firing. *)
Theorem registered_emails_distinct (E : env) (sent : request -> Prop) (d : database) :
  reachable E sent d ->
  NoDup (map u_email (users d))
  /\ Forall (fun u => u_email u <> []
                      /\ exists password,
                           password <> []
                           /\ u_password_hash u = bcrypt_hash password) (users d).
Proof.
  intro Hr. split; [exact (reachable_emails_distinct Hr)|].
  induction Hr as [|d ep req Hr IH Hs]; [constructor|].
  destruct (handle_users_step E ep d req) as [[-> _] | (_ & [H1 H2] & _ & -> & _)];
    [exact IH|].
  apply Forall_app. split; [exact IH|].
  constructor; [|constructor]. simpl. split.
  - destruct (body_email req) as [[|c e]|]; simpl in *; discriminate.
  - exists (or_empty (body_password req)). split; [|reflexivity].
    destruct (body_password req) as [[|c e]|]; simpl in *; discriminate.
Qed.

(** X3: in every reachable store the user_id of an optimization record is
    null or the id of a row of the users table. *)
Theorem stored_user_ids_resolve (E : env) (sent : request -> Prop) (d : database) :
  reachable E sent d ->
  forall r id,
    In r (optimizations d) -> o_user_id r = Some id ->
    exists u, In u (users d) /\ u_id u = id.
Proof.
  intros Hr r id Hin Hid.
  pose proof (reachable_user_ids_resolve E sent d Hr) as H.
  unfold user_ids_resolve in H. rewrite Forall_forall in H.
  specialize (H r Hin). rewrite Hid in H.
  apply in_map_iff in H. destruct H as (u & Hu & Hin'). exists u. split; assumption.
Qed.



End ServerExtras.

Section ServerOutcomes.

Context {P : Platform}.

(** X6: only a signup answered 200 adds to the users table and only an
    optimize answered 200 adds to the optimizations table; login, me, logout,
    stats and health never change the store, and neither does any request
    answered with an error status. *)
Theorem errors_and_reads_do_not_write (E : env) (ep : endpoint) (d : database)
    (req : request) :
  let d' := fst (handle E ep d req) in
  let res := snd (handle E ep d req) in
  (ep <> POST_signup -> users d' = users d /\ users_seq d' = users_seq d)
  /\ (ep <> POST_optimize ->
      optimizations d' = optimizations d
      /\ optimizations_seq d' = optimizations_seq d)
  /\ (ep <> POST_signup -> ep <> POST_optimize -> d' = d)
  /\ (status res <> 200%Z -> d' = d)
  /\ (d' <> d -> status res = 200%Z /\ (ep = POST_signup \/ ep = POST_optimize)).
Proof.
  assert (Hlogin : fst (login d req) = d).
  { unfold login.
    destruct (falsy_opt (body_email req) || falsy_opt (body_password req));
      [reflexivity|].
    destruct (select_user_by_email d (or_empty (body_email req))); [|reflexivity].
    destruct (negb _); reflexivity. }
  assert (Hme : fst (me d req) = d).
  { unfold me. destruct (getUserFromToken d req); reflexivity. }
  assert (Hsignup : status (snd (signup d req)) <> 200%Z -> fst (signup d req) = d).
  { destruct (credentials_present_dec req) as [Hc | Hc].
    - destruct (select_user_by_email d (or_empty (body_email req))) as [row|] eqn:Hs.
      + rewrite (signup_conflicts d req row Hc Hs). reflexivity.
      + rewrite (signup_creates d req Hc Hs). simpl. intro H. contradiction H. reflexivity.
    - rewrite (signup_rejects d req Hc). reflexivity. }
  assert (Hopt : status (snd (optimize E d req)) <> 200%Z -> fst (optimize E d req) = d).
  { destruct (falsy_opt (body_prompt req)) eqn:Hp.
    - rewrite (optimize_rejects E d req Hp). reflexivity.
    - rewrite (optimize_accepts E d req Hp). simpl. intro H. contradiction H. reflexivity. }
  assert (Hsu : optimizations (fst (signup d req)) = optimizations d
                /\ optimizations_seq (fst (signup d req)) = optimizations_seq d).
  { destruct (handle_optimizations E POST_signup d req) as [H | [H _]];
      [exact H | discriminate]. }
  assert (Hou : users (fst (optimize E d req)) = users d
                /\ users_seq (fst (optimize E d req)) = users_seq d).
  { destruct (handle_users_step E POST_optimize d req) as [H | [H _]];
      [exact H | discriminate]. }
  destruct ep; simpl; repeat split; intros;
    try congruence; try reflexivity; try tauto;
    try (rewrite Hlogin; reflexivity); try (rewrite Hme; reflexivity);
    try (apply Hsu); try (apply Hou); auto.
  - destruct (Z.eq_dec (status (snd (signup d req))) 200); [assumption|].
    exfalso; auto.
  - destruct (Z.eq_dec (status (snd (optimize E d req))) 200); [assumption|].
    exfalso; auto.
Qed.

Lemma login_cases (d : database) (req : request) :
  (~ credentials_present req
   /\ login d req = (d, reply 400 (Message "Email and password required")))
  \/ (credentials_present req
      /\ select_user_by_email d (or_empty (body_email req)) = None
      /\ login d req = (d, reply 401 (Message "Invalid credentials")))
  \/ (credentials_present req
      /\ exists row,
           select_user_by_email d (or_empty (body_email req)) = Some row
           /\ bcrypt_compare (or_empty (body_password req)) (u_password_hash row) = false
           /\ login d req = (d, reply 401 (Message "Invalid credentials")))
  \/ (credentials_present req
      /\ exists row,
           select_user_by_email d (or_empty (body_email req)) = Some row
           /\ bcrypt_compare (or_empty (body_password req)) (u_password_hash row) = true
           /\ login d req =
              (d, {| status := 200; body := UserJson (Some (u_id row, u_email row));
                     cookie := SetToken (jwt_sign (u_id row) (u_email row)) |})).
Proof.
  destruct (credentials_present_dec req) as [Hc | Hc].
  - right. unfold login. destruct Hc as [H1 H2]. rewrite H1, H2. simpl orb. cbv iota.
    destruct (select_user_by_email d (or_empty (body_email req))) as [row|] eqn:Hs.
    + right.
      destruct (bcrypt_compare (or_empty (body_password req)) (u_password_hash row))
        eqn:Hcmp; simpl.
      * right. split; [split; assumption|]. exists row. repeat split; assumption.
      * left. split; [split; assumption|]. exists row. repeat split; assumption.
    + left. split; [split; assumption|]. split; reflexivity.
  - left. split; [exact Hc|]. unfold login.
    destruct (falsy_opt (body_email req)) eqn:H1; [reflexivity|].
    destruct (falsy_opt (body_password req)) eqn:H2; [reflexivity|].
    exfalso. apply Hc. split; assumption.
Qed.

(** X7: for a body whose email is absent or a string and whose password is
    any JSON value, login answers 400 exactly when the email or the password
    is missing or empty, 200 exactly when a row has the email (as SQLite is
    handed it), the password is a string and bcrypt.compare accepts it
    against the hash of that row, 500 exactly when a row has the email and
    the password is no string, and 401 otherwise; the answer carries the id
    and email of that row and sets the token cookie on 200 only, and the
    store is never changed. *)
Theorem login_outcome (d : database) (b : auth_body) :
  let res := snd (login_full d b) in
  let email := or_empty (a_email b) in
  let present := falsy_opt (a_email b) || falsy_val (a_password b) = false in
  fst (login_full d b) = d
  /\ (status res = 400%Z <-> ~ present)
  /\ (status res = 200%Z <->
      present
      /\ exists row pw,
           select_user_by_bound_email d email = Some row
           /\ a_password b = JString pw
           /\ bcrypt_compare pw (u_password_hash row) = true)
  /\ (status res = 500%Z <->
      present
      /\ (exists row, select_user_by_bound_email d email = Some row)
      /\ forall pw, a_password b <> JString pw)
  /\ (status res = 200%Z \/ status res = 400%Z \/ status res = 401%Z
      \/ status res = 500%Z)
  /\ (status res = 200%Z ->
      exists row,
        In row (users d)
        /\ u_email row = sqlite_text email
        /\ body res = UserJson (Some (u_id row, u_email row))
        /\ cookie res = SetToken (jwt_sign (u_id row) (u_email row)))
  /\ (status res <> 200%Z -> cookie res = NoCookie).
Proof.
  intros res email present. subst res email present.
  destruct (login_full_cases d b)
    as [[Hc ->] | [(Hc & Hs & ->) | [(Hc & (row & Hs) & Hns & ->)
        | [(Hc & row & pw & Hs & Hpw & Hcmp & ->)
          | (Hc & row & pw & Hs & Hpw & Hcmp & ->)]]]];
    cbn [fst snd status body cookie reply].
  - split; [reflexivity|].
    split; [split; [intros _; congruence | reflexivity]|].
    split; [split; [discriminate | intros [H _]; congruence]|].
    split; [split; [discriminate | intros [H _]; congruence]|].
    split; [tauto|]. split; [discriminate | reflexivity].
  - split; [reflexivity|].
    split; [split; [discriminate | intro H; contradiction (H Hc)]|].
    split; [split; [discriminate | intros (_ & r & p & Hr & _); congruence]|].
    split; [split; [discriminate | intros (_ & (r & Hr) & _); congruence]|].
    split; [tauto|]. split; [discriminate | reflexivity].
  - split; [reflexivity|].
    split; [split; [discriminate | intro H; contradiction (H Hc)]|].
    split; [split; [discriminate
                   | intros (_ & r & p & _ & Hp & _); contradiction (Hns p Hp)]|].
    split; [split; [intros _; split; [exact Hc|]; split;
                    [exists row; exact Hs | exact Hns]
                   | reflexivity]|].
    split; [tauto|]. split; [discriminate | reflexivity].
  - split; [reflexivity|].
    split; [split; [discriminate | intro H; contradiction (H Hc)]|].
    split; [split; [discriminate | intros (_ & r & p & Hr & Hp & Hc'); congruence]|].
    split; [split; [discriminate | intros (_ & _ & Hn); contradiction (Hn pw Hpw)]|].
    split; [tauto|]. split; [discriminate | reflexivity].
  - split; [reflexivity|].
    split; [split; [discriminate | intro H; contradiction (H Hc)]|].
    split; [split; [intros _; split; [exact Hc|]; exists row, pw; repeat split; assumption
                   | reflexivity]|].
    split; [split; [discriminate | intros (_ & _ & Hn); contradiction (Hn pw Hpw)]|].
    split; [tauto|]. split.
    + intros _. exists row.
      destruct (@select_user_by_bound_email_some d _ row Hs) as [Hin He].
      repeat split; assumption.
    + intro H. contradiction H. reflexivity.
Qed.


End ServerOutcomes.

(** ** Statistics over runs *)

Lemma sum_co2_is_kwh_times_grid (E : env) (rows : list optimization_row) :
  Forall (derived_fields_ok E) rows ->
  sum_co2 rows == sum_kwh rows * GRID_KGCO2_PER_KWH E.
Proof.
  induction 1 as [|r rows [_ Hco2] _ IH]; simpl; [ring|].
  rewrite IH, Hco2. ring.
Qed.

Lemma sum_kwh_nonneg (E : env) (rows : list optimization_row) :
  Forall (derived_fields_ok E) rows -> 0 <= sum_kwh rows.
Proof.
  induction 1 as [|r rows [Hs _] _ IH]; simpl; [apply Qle_refl|].
  assert (0 <= o_tokens_saved r) by (rewrite Hs; apply Qmax_0_nonneg).
  pose proof kwh_per_token_pos as Hk.
  assert (0 <= o_tokens_saved r * kwh_per_token)
    by (apply Qmult_le_0_compat; [assumption | apply Qlt_le_weak; exact Hk]).
  lra.
Qed.

Section StatsExtras.

Context {P : Platform}.

Lemma handle_records_answered (E : env) (ep : endpoint) (d : database) (req : request) :
  List.length (optimizations (fst (handle E ep d req)))
  = (List.length (optimizations d) + optimizes_answered_200 E d [(ep, req)])%nat.
Proof.
  assert (Hother : ep <> POST_optimize ->
                   optimizations (fst (handle E ep d req)) = optimizations d).
  { intro Hne. destruct (handle_optimizations E ep d req) as [[H _] | [H _]];
      [exact H | contradiction]. }
  destruct ep; try (rewrite Hother by discriminate; simpl; lia).
  cbn [optimizes_answered_200]. simpl handle.
  destruct (falsy_opt (body_prompt req)) eqn:Hp.
  - rewrite (optimize_rejects E d req Hp). simpl. lia.
  - rewrite (optimize_accepts E d req Hp). simpl. rewrite length_app. simpl. lia.
Qed.

Lemma optimizes_answered_200_cons (E : env) (d : database) (ep : endpoint)
    (req : request) (t : list (endpoint * request)) :
  optimizes_answered_200 E d ((ep, req) :: t)
  = (optimizes_answered_200 E d [(ep, req)]
     + optimizes_answered_200 E (fst (handle E ep d req)) t)%nat.
Proof. cbn [optimizes_answered_200]. lia. Qed.

(** X9: prompts_optimized counts exactly the optimize requests that were
    answered 200: after any run of requests the stats answer shows the
    earlier count plus the number of such requests in the run, and the users
    count never goes down. *)
Theorem stats_count_accepted_optimizes (E : env) (GRID : Q) (d : database)
    (trace : list (endpoint * request)) :
  st_prompts_optimized (snapshot GRID (run E d trace))
  = (st_prompts_optimized (snapshot GRID d)
     + Z.of_nat (optimizes_answered_200 E d trace))%Z
  /\ (st_users (snapshot GRID d) <= st_users (snapshot GRID (run E d trace)))%Z.
Proof.
  unfold snapshot. simpl. rewrite !Z_or_zero. unfold count_rows.
  split.
  - revert d. induction trace as [|[ep req] t IH]; intro d.
    + simpl. lia.
    + simpl run. rewrite IH, handle_records_answered.
      rewrite (optimizes_answered_200_cons E d ep req t). lia.
  - destruct (run_users_prefix E d trace) as [later ->].
    rewrite length_app. lia.
Qed.

(** X10: in every reachable store energy_saved_kwh of the stats answer is
    never negative; with a grid intensity that is not negative, co2_saved_kg
    and impact_score are not negative either, and with a negative one
    co2_saved_kg is never positive. *)
Theorem stats_energy_never_negative (E : env) (sent : request -> Prop) (d : database) :
  reachable E sent d ->
  let s := snapshot (GRID_KGCO2_PER_KWH E) d in
  0 <= st_energy_saved_kwh s
  /\ (0 <= GRID_KGCO2_PER_KWH E -> 0 <= st_co2_saved_kg s /\ 0 <= st_impact_score s)
  /\ (GRID_KGCO2_PER_KWH E < 0 -> st_co2_saved_kg s <= 0).
Proof.
  intros Hr s.
  pose proof (reachable_derived_fields Hr) as Hd.
  pose proof (sum_co2_is_kwh_times_grid E _ Hd) as Hsum.
  pose proof (sum_kwh_nonneg E _ Hd) as Hk.
  assert (Hco2 : st_co2_saved_kg s == sum_co2 (optimizations d))
    by (subst s; unfold snapshot; simpl; apply Q_or_zero).
  assert (Hpos : 0 <= GRID_KGCO2_PER_KWH E -> 0 <= st_co2_saved_kg s).
  { intro Hg. rewrite Hco2, Hsum. apply Qmult_le_0_compat; assumption. }
  split; [|split].
  - destruct (Qlt_le_dec 0 (GRID_KGCO2_PER_KWH E)) as [Hg | Hg].
    + assert (H0 : 0 <= st_co2_saved_kg s) by (apply Hpos; lra).
      subst s. unfold snapshot in *. simpl in *.
      rewrite (proj2 (Qgtb_true _ _) Hg).
      apply Qle_shift_div_l; [exact Hg|]. lra.
    + subst s. unfold snapshot. simpl.
      rewrite (proj2 (Qgtb_false _ _) Hg). apply Qle_refl.
  - intro Hg. pose proof (Hpos Hg) as H0. split; [exact H0|].
    subst s. unfold snapshot in *. simpl in *. rewrite !Z_or_zero.
    assert (0 <= inject_Z (count_rows (optimizations d))).
    { change 0 with (inject_Z 0). rewrite <- Zle_Qle. unfold count_rows. lia. }
    assert (0 <= inject_Z (count_rows (users d))).
    { change 0 with (inject_Z 0). rewrite <- Zle_Qle. unfold count_rows. lia. }
    lra.
  - intro Hg. rewrite Hco2, Hsum.
    setoid_replace (sum_kwh (optimizations d) * GRID_KGCO2_PER_KWH E)
      with (- (sum_kwh (optimizations d) * - GRID_KGCO2_PER_KWH E)) by ring.
    assert (0 <= sum_kwh (optimizations d) * - GRID_KGCO2_PER_KWH E)
      by (apply Qmult_le_0_compat; [exact Hk | lra]).
    lra.
Qed.

(** X11: when the server estimates tokens_before and derives tokens_after,
    the stored tokens_after is never negative and the stored saving never
    exceeds tokens_before; on the default path (no optimized_prompt either)
    tokens_after lies between four fifths of tokens_before and tokens_before,
    and the saving is at most a fifth of it. *)
Theorem derived_tokens_after_bounds (E : env) (d : database) (req : request) :
  falsy_opt (body_prompt req) = false ->
  typeof_number (body_tokens_before req) = false ->
  typeof_number (body_tokens_after req) = false ->
  exists row,
    new_rows d (fst (optimize E d req)) = [row]
    /\ o_tokens_before row = inject_Z (estimateTokens (or_empty (body_prompt req)))
    /\ 0 <= o_tokens_before row
    /\ 0 <= o_tokens_after row
    /\ o_tokens_saved row <= o_tokens_before row
    /\ (falsy_opt (body_optimized_prompt req) = true ->
        (8 # 10) * o_tokens_before row <= o_tokens_after row
        /\ o_tokens_after row <= o_tokens_before row
        /\ o_tokens_saved row <= (2 # 10) * o_tokens_before row).
Proof.
  intros Hp Hbn Ht. rewrite (optimize_accepts E d req Hp).
  unfold new_rows. simpl. rewrite skipn_length_app.
  eexists. split; [reflexivity|]. simpl.
  assert (Htb : tokens_before_of req
                = inject_Z (estimateTokens (or_empty (body_prompt req)))).
  { destruct (tokens_before_of_cases req) as [(q & Hq & _) | (_ & H)];
      [rewrite Hq in Hbn; discriminate | exact H]. }
  set (tb := tokens_before_of req) in *.
  assert (Hb : 0 <= tb).
  { rewrite Htb. apply is_natural_nonneg. apply is_natural_estimate. }
  assert (Hd0 : forall x, 0 <= default_tokens_after x).
  { intro x. unfold default_tokens_after. apply Qmax_0_nonneg. }
  assert (Ha0 : 0 <= tokens_after_of req tb).
  { destruct (tokens_after_of_cases req tb)
      as [(q & Hq & _) | [(_ & _ & ->) | (_ & _ & ->)]].
    - rewrite Hq in Ht. discriminate.
    - apply Hd0.
    - apply is_natural_nonneg. apply is_natural_estimate. }
  split; [exact Htb|]. split; [exact Hb|]. split; [exact Ha0|]. split.
  { destruct (Q.max_spec 0 (tb - tokens_after_of req tb)) as [[_ ->] | [_ ->]];
      lra. }
  intro Ho.
  assert (Ha : tokens_after_of req tb = default_tokens_after tb).
  { destruct (tokens_after_of_cases req tb)
      as [(q & Hq & _) | [(_ & _ & H) | (_ & Hf & _)]].
    - rewrite Hq in Ht. discriminate.
    - exact H.
    - congruence. }
  rewrite Ha.
  pose proof (default_tokens_after_nonneg Hb) as Hd.
  destruct (floor_fifth_bounds Hb) as [Hf Hle].
  pose proof (Qfloor_le (tb * (2 # 10))) as Hfl.
  assert (Hf0 : 0 <= inject_Z (Qfloor (tb * (2 # 10)))).
  { change 0 with (inject_Z 0). rewrite <- Zle_Qle. exact Hf. }
  assert (Hs : Qmax 0 (tb - default_tokens_after tb)
               == inject_Z (Qfloor (tb * (2 # 10)))).
  { rewrite Qmax_0_of_nonneg; lra. }
  rewrite Hs, Hd. repeat split; lra.
Qed.

End StatsExtras.

(** * Further properties of the estimator *)

Lemma normalize_fold (s : jsstring) :
  normalize s = trimEnd_fold (replace_ws_from true s).
Proof.
  unfold normalize, trim, replace_ws.
  rewrite trimStart_replace_ws, trimEnd_is_fold. apply fold_after_trimStart.
Qed.

Lemma fold_true_ws (c : code_unit) (r : jsstring) :
  is_ws c = true ->
  trimEnd_fold (replace_ws_from true (c :: r)) = trimEnd_fold (replace_ws_from true r).
Proof. intro Hc. simpl replace_ws_from. rewrite Hc. reflexivity. Qed.

Lemma fold_false_ws (c : code_unit) (r : jsstring) :
  is_ws c = true ->
  trimEnd_fold (replace_ws_from false (c :: r))
  = match trimEnd_fold (replace_ws_from true r) with
    | [] => []
    | t => SPACE :: t
    end.
Proof. intro Hc. simpl replace_ws_from. rewrite Hc. reflexivity. Qed.

Lemma fold_nonws (b : bool) (c : code_unit) (r : jsstring) :
  is_ws c = false ->
  trimEnd_fold (replace_ws_from b (c :: r))
  = c :: trimEnd_fold (replace_ws_from false r).
Proof.
  intro Hc. simpl replace_ws_from. rewrite Hc.
  apply trimEnd_fold_keep. exact Hc.
Qed.

Lemma fold_true_le_false (s : jsstring) :
  (List.length (trimEnd_fold (replace_ws_from true s))
   <= List.length (trimEnd_fold (replace_ws_from false s)))%nat.
Proof.
  destruct s as [|c r]; [apply le_n|].
  destruct (is_ws c) eqn:Hc.
  - rewrite (fold_true_ws c r Hc), (fold_false_ws c r Hc).
    destruct (trimEnd_fold (replace_ws_from true r)); simpl; lia.
  - rewrite !(fold_nonws _ c r Hc). apply le_n.
Qed.

Lemma fold_length_le (s : jsstring) (b : bool) :
  (List.length (trimEnd_fold (replace_ws_from b s)) <= List.length s)%nat.
Proof.
  revert b. induction s as [|c r IH]; intro b; [apply le_n|].
  destruct (is_ws c) eqn:Hc.
  - destruct b.
    + rewrite (fold_true_ws c r Hc). specialize (IH true). simpl. lia.
    + rewrite (fold_false_ws c r Hc). specialize (IH true).
      destruct (trimEnd_fold (replace_ws_from true r)); simpl in *; lia.
  - rewrite (fold_nonws b c r Hc). specialize (IH false). simpl. lia.
Qed.

Lemma normalize_length_le (s : jsstring) :
  (List.length (normalize s) <= List.length s)%nat.
Proof. rewrite normalize_fold. apply fold_length_le. Qed.

Lemma deletes_nonspace_fold (s' s : jsstring) :
  deletes_nonspace s' s ->
  (List.length (trimEnd_fold (replace_ws_from true s'))
   <= List.length (trimEnd_fold (replace_ws_from true s)))%nat
  /\ (List.length (trimEnd_fold (replace_ws_from false s'))
      <= List.length (trimEnd_fold (replace_ws_from false s)))%nat.
Proof.
  induction 1 as [|c s' s _ [IHt IHf]|c s' s Hc _ [IHt IHf]].
  - split; apply le_n.
  - destruct (is_ws c) eqn:Hc.
    + rewrite !(fold_true_ws c _ Hc), !(fold_false_ws c _ Hc).
      split; [exact IHt|].
      destruct (trimEnd_fold (replace_ws_from true s')),
               (trimEnd_fold (replace_ws_from true s)); simpl in *; lia.
    + rewrite !(fold_nonws _ c _ Hc). simpl. split; lia.
  - rewrite !(fold_nonws _ c _ Hc). simpl.
    pose proof (fold_true_le_false s). split; lia.
Qed.

Lemma deletes_nonspace_refl (s : jsstring) : deletes_nonspace s s.
Proof. induction s; constructor; assumption. Qed.

Lemma deletes_nonspace_length (s' s : jsstring) :
  deletes_nonspace s' s -> (List.length s' <= List.length s)%nat.
Proof. induction 1; simpl; lia. Qed.

Lemma tokens_of_length_mono (n m : nat) :
  (n <= m)%nat -> (tokens_of_length n <= tokens_of_length m)%Z.
Proof.
  intro H. unfold tokens_of_length.
  destruct n as [|n]; [destruct m; lia|].
  destruct m as [|m]; [lia|].
  rewrite !ceil_quarter_eq.
  apply Z.max_le_compat_l. apply Z.div_le_mono; lia.
Qed.

Lemma estimateTokens_length (s : jsstring) :
  estimateTokens s = tokens_of_length (List.length (normalize s)).
Proof.
  rewrite estimateTokens_unfold. destruct (normalize s); reflexivity.
Qed.

Lemma normalize_nil_iff (s : jsstring) :
  normalize s = [] <-> forallb is_ws s = true.
Proof.
  rewrite normalize_fold. induction s as [|c r IH]; [split; reflexivity|].
  simpl forallb. destruct (is_ws c) eqn:Hc.
  - rewrite (fold_true_ws c r Hc). exact IH.
  - rewrite (fold_nonws true c r Hc). split; discriminate.
Qed.

Lemma fold_trailing_ws (s pad : jsstring) (b : bool) :
  forallb is_ws pad = true ->
  trimEnd_fold (replace_ws_from b (s ++ pad)) = trimEnd_fold (replace_ws_from b s).
Proof.
  intro Hpad.
  assert (Ht : trimEnd_fold (replace_ws_from true pad) = []).
  { rewrite <- normalize_fold. apply normalize_nil_iff. exact Hpad. }
  revert b. induction s as [|c r IH]; intro b.
  - simpl app. destruct b; [exact Ht|].
    destruct pad as [|p pad']; [reflexivity|].
    simpl in Hpad. apply andb_true_iff in Hpad. destruct Hpad as [Hp Hpad'].
    rewrite (fold_false_ws p pad' Hp).
    rewrite (fold_true_ws p pad' Hp) in Ht. rewrite Ht. reflexivity.
  - simpl app. destruct (is_ws c) eqn:Hc.
    + destruct b.
      * rewrite !(fold_true_ws c _ Hc). apply IH.
      * rewrite !(fold_false_ws c _ Hc), (IH true). reflexivity.
    + rewrite !(fold_nonws b c _ Hc), (IH false). reflexivity.
Qed.

Lemma fold_leading_ws (pad s : jsstring) :
  forallb is_ws pad = true ->
  trimEnd_fold (replace_ws_from true (pad ++ s)) = trimEnd_fold (replace_ws_from true s).
Proof.
  induction pad as [|p pad IH]; intro H; [reflexivity|].
  simpl in H. apply andb_true_iff in H. destruct H as [Hp H].
  simpl app. rewrite (fold_true_ws p _ Hp). apply IH. exact H.
Qed.

Lemma words_from_word (w cur rest : jsstring) :
  Forall (fun c => is_ws c = false) w ->
  words_from cur (w ++ rest) = words_from (rev w ++ cur) rest.
Proof.
  revert cur. induction w as [|c w IH]; intros cur Hw; [reflexivity|].
  inversion Hw as [|? ? Hc Hw']; subst. simpl app at 1. simpl words_from.
  rewrite Hc, (IH (c :: cur) Hw'). simpl rev. rewrite <- app_assoc. reflexivity.
Qed.

Lemma words_unwords (ws : list jsstring) :
  Forall (fun w => w <> []) ws ->
  Forall (Forall (fun c => is_ws c = false)) ws ->
  words (unwords ws) = ws.
Proof.
  unfold words. induction ws as [|w rest IH]; intros Hne Hws; [reflexivity|].
  inversion Hne as [|? ? Hw Hne']; subst.
  inversion Hws as [|? ? Hc Hws']; subst.
  assert (Hrev : rev w <> []).
  { intro H. apply (f_equal (@List.length _)) in H. rewrite length_rev in H.
    destruct w; [contradiction | discriminate]. }
  destruct rest as [|w' rest'].
  - simpl unwords. pose proof (words_from_word w [] [] Hc) as Hww.
    rewrite !app_nil_r in Hww. rewrite Hww.
    simpl. destruct (rev w) eqn:E; [contradiction|].
    rewrite <- E, rev_involutive. reflexivity.
  - change (unwords (w :: w' :: rest')) with (w ++ SPACE :: unwords (w' :: rest')).
    rewrite (words_from_word w [] _ Hc), app_nil_r.
    assert (Hstep : forall cur u,
               cur <> [] -> words_from cur (SPACE :: u) = rev cur :: words_from [] u).
    { intros cur u Hcur. destruct cur; [contradiction | reflexivity]. }
    rewrite (Hstep _ _ Hrev), rev_involutive. f_equal. exact (IH Hne' Hws').
Qed.

Lemma normalize_idempotent (s : jsstring) : normalize (normalize s) = normalize s.
Proof.
  rewrite (normalize_refines_spec (normalize s)).
  rewrite (normalize_refines_spec s) at 1. unfold spec_normalize at 1 2.
  rewrite words_unwords; [symmetry; apply normalize_refines_spec | |].
  - apply words_from_nonempty.
  - apply words_from_no_ws. constructor.
Qed.

Lemma estimateTokens_positive (text : jsstring) :
  forallb is_ws text = false -> (1 <= estimateTokens text)%Z.
Proof.
  intro H. rewrite estimateTokens_unfold.
  destruct (normalize text) as [|c t] eqn:E; [|lia].
  apply normalize_nil_iff in E. congruence.
Qed.

(** X12: the estimate is 0 exactly for a text that is empty or all white
    space; every other text counts at least one token. *)
Theorem estimate_zero_iff_blank (text : jsstring) :
  (estimateTokens text = 0%Z <-> forallb is_ws text = true)
  /\ (forallb is_ws text = false -> (1 <= estimateTokens text)%Z).
Proof.
  rewrite estimateTokens_unfold.
  pose proof (normalize_nil_iff text) as Hn.
  destruct (normalize text) as [|c t] eqn:E.
  - split; [split; [intros _; apply Hn; reflexivity | reflexivity]|].
    intro H. rewrite (proj1 Hn eq_refl) in H. discriminate.
  - split; [|intros _; lia].
    split; [lia|]. intro H. apply Hn in H. discriminate.
Qed.

(** X13: the estimate only sees the normal form: normalizing a text again
    changes nothing, so estimate(normalize(text)) = estimate(text), and white
    space put before or after a text does not change its estimate. *)
Theorem estimate_ignores_padding (text before after : jsstring) :
  normalize (normalize text) = normalize text
  /\ estimateTokens (normalize text) = estimateTokens text
  /\ (forallb is_ws before = true -> forallb is_ws after = true ->
      normalize (before ++ text ++ after) = normalize text
      /\ estimateTokens (before ++ text ++ after) = estimateTokens text).
Proof.
  split; [apply normalize_idempotent|].
  split; [rewrite !estimateTokens_length, normalize_idempotent; reflexivity|].
  intros Hb Ha.
  assert (H : normalize (before ++ text ++ after) = normalize text).
  { rewrite !normalize_fold, (fold_leading_ws before _ Hb).
    apply fold_trailing_ws. exact Ha. }
  split; [exact H|]. rewrite !estimateTokens_length, H. reflexivity.
Qed.

(** X14: deleting units that are not white space from a text never makes
    its normal form longer nor its estimate larger, and the estimate is at
    most the ceiling of a quarter of the raw length. *)
Theorem estimate_monotone_under_deletion (shorter text : jsstring) :
  deletes_nonspace shorter text ->
  (List.length (normalize shorter) <= List.length (normalize text))%nat
  /\ (estimateTokens shorter <= estimateTokens text)%Z
  /\ (estimateTokens text <= tokens_of_length (List.length text))%Z
  /\ (estimateTokens text <= Z.of_nat (List.length text))%Z.
Proof.
  intro H. destruct (deletes_nonspace_fold shorter text H) as [Ht _].
  rewrite <- !normalize_fold in Ht.
  split; [exact Ht|].
  split; [rewrite !estimateTokens_length; apply tokens_of_length_mono; exact Ht|].
  assert (Hle : (estimateTokens text <= tokens_of_length (List.length text))%Z).
  { rewrite estimateTokens_length. apply tokens_of_length_mono.
    apply normalize_length_le. }
  split; [exact Hle|].
  eapply Z.le_trans; [exact Hle|].
  unfold tokens_of_length. destruct (List.length text) as [|n]; [lia|].
  rewrite ceil_quarter_eq.
  pose proof (Z.div_mod (Z.of_nat (S n) + 3) 4 ltac:(lia)).
  pose proof (Z.mod_pos_bound (Z.of_nat (S n) + 3) 4 ltac:(lia)).
  lia.
Qed.

(** * The optimizer of the client *)

Lemma deletes_only_refl (p : code_unit -> bool) (s : jsstring) : deletes_only p s s.
Proof. induction s; constructor; assumption. Qed.

Lemma deletes_only_nonspace (p : code_unit -> bool) (s' s : jsstring) :
  (forall c, p c = true -> is_ws c = false) ->
  deletes_only p s' s -> deletes_nonspace s' s.
Proof.
  intros Hp. induction 1; constructor; auto.
Qed.

Lemma deletes_only_filter (p q : code_unit -> bool) (s' s : jsstring) :
  (forall c, p c = true -> q c = false) ->
  deletes_only p s' s -> filter q s' = filter q s.
Proof.
  intros Hp. induction 1 as [|c s' s _ IH|c s' s Hc _ IH]; simpl.
  - reflexivity.
  - rewrite IH. reflexivity.
  - rewrite (Hp c Hc). exact IH.
Qed.

Lemma is_letter_not_ws (c : code_unit) : is_letter c = true -> is_ws c = false.
Proof.
  unfold is_letter, is_ws. intro H.
  apply orb_true_iff in H.
  destruct H as [H | H]; apply andb_true_iff in H; destruct H as [H1 H2];
    apply N.leb_le in H1; apply N.leb_le in H2;
    repeat (apply orb_false_iff; split);
    try (apply N.eqb_neq; lia);
    apply andb_false_iff;
    try (left; apply N.leb_gt; lia); right; apply N.leb_gt; lia.
Qed.

Lemma is_letter_is_word (c : code_unit) : is_letter c = true -> is_word c = true.
Proof.
  unfold is_letter, is_word. intro H.
  apply orb_true_iff in H. destruct H as [H | H]; rewrite H.
  - rewrite orb_true_r. reflexivity.
  - rewrite !orb_true_r. reflexivity.
Qed.

Lemma matches_letter_is_letter (p c : code_unit) :
  (97 <= p <= 122)%N -> matches_letter p c = true -> is_letter c = true.
Proof.
  intros Hp H. unfold matches_letter in H. unfold is_letter.
  apply orb_true_iff in H. destruct H as [H | H]; apply N.eqb_eq in H; subst c.
  - apply orb_true_iff. right. apply andb_true_iff. split; apply N.leb_le; lia.
  - apply orb_true_iff. left. apply andb_true_iff. split; apply N.leb_le; lia.
Qed.


Lemma fillers_lowercase :
  Forall (fun w => w <> [] /\ Forall (fun p => (97 <= p <= 122)%N) w) fillers.
Proof.
  unfold fillers. simpl.
  repeat (constructor; [split; [discriminate | repeat (constructor; [lia|]); constructor]|]).
  constructor.
Qed.

Lemma match_word_spec (w s rest : jsstring) :
  Forall (fun p => (97 <= p <= 122)%N) w ->
  match_word w s = Some rest ->
  exists m,
    s = m ++ rest
    /\ List.length m = List.length w
    /\ Forall (fun c => is_letter c = true) m.
Proof.
  revert s. induction w as [|p w IH]; intros s Hw H.
  - simpl in H. injection H as <-. exists []. repeat split. constructor.
  - inversion Hw as [|? ? Hp Hw']; subst.
    destruct s as [|c s]; [discriminate|]. simpl in H.
    destruct (matches_letter p c) eqn:Hm; [|discriminate].
    destruct (IH s Hw' H) as (m & -> & Hlen & Hall).
    exists (c :: m). split; [reflexivity|]. split; [simpl; lia|].
    constructor; [exact (matches_letter_is_letter p c Hp Hm) | exact Hall].
Qed.

Lemma match_alternatives_spec (ws : list jsstring) (s rest : jsstring) :
  Forall (fun w => w <> [] /\ Forall (fun p => (97 <= p <= 122)%N) w) ws ->
  match_alternatives ws s = Some rest ->
  exists m,
    s = m ++ rest
    /\ m <> []
    /\ Forall (fun c => is_letter c = true) m
    /\ word_boundary true rest = true.
Proof.
  induction 1 as [|w ws [Hne Hw] _ IH]; intro H; [discriminate|].
  cbn [match_alternatives] in H.
  destruct (match_word w s) as [r|] eqn:Hm; [|exact (IH H)].
  destruct (word_boundary true r) eqn:Hb; [|exact (IH H)].
  injection H as <-.
  destruct (match_word_spec w s r Hw Hm) as (m & -> & Hlen & Hall).
  exists m. split; [reflexivity|]. split; [|split; assumption].
  intros ->. destruct w; [contradiction | discriminate].
Qed.

Lemma deletes_only_prefix (p : code_unit -> bool) (m x rest : jsstring) :
  Forall (fun c => p c = true) m ->
  deletes_only p x rest -> deletes_only p x (m ++ rest).
Proof.
  induction 1 as [|c m Hc _ IH]; intro H; [exact H|].
  simpl. apply do_drop; [exact Hc | exact (IH H)].
Qed.

Lemma strip_scan_step (n : nat) (prev : bool) (c : code_unit) (r : jsstring) :
  strip_scan (S n) prev (c :: r) =
  match (if word_boundary prev (c :: r)
         then match_alternatives fillers (c :: r) else None) with
  | Some rest => strip_scan n true rest
  | None => c :: strip_scan n (is_word c) r
  end.
Proof. reflexivity. Qed.

Lemma strip_scan_deletes (fuel : nat) (prev : bool) (s : jsstring) :
  deletes_only is_letter (strip_scan fuel prev s) s.
Proof.
  revert prev s. induction fuel as [|n IH]; intros prev s;
    [apply deletes_only_refl|].
  destruct s as [|c r]; [constructor|]. rewrite strip_scan_step.
  destruct (word_boundary prev (c :: r)).
  - destruct (match_alternatives fillers (c :: r)) as [rest|] eqn:Hm.
    + destruct (match_alternatives_spec _ _ _ fillers_lowercase Hm)
        as (m & -> & _ & Hall & _).
      apply deletes_only_prefix; [exact Hall | apply IH].
    + apply do_keep. apply IH.
  - apply do_keep. apply IH.
Qed.

(** The scan never runs out of steps: any fuel from the length of the text
    on gives the same result. *)
Lemma strip_scan_fuel (n m : nat) (prev : bool) (s : jsstring) :
  (List.length s <= n)%nat -> (List.length s <= m)%nat ->
  strip_scan n prev s = strip_scan m prev s.
Proof.
  revert m prev s. induction n as [|n IH]; intros m prev s Hn Hm.
  - destruct s; [|simpl in Hn; lia]. destruct m; reflexivity.
  - destruct m as [|m]; [destruct s; [reflexivity | simpl in Hm; lia]|].
    destruct s as [|c r]; [reflexivity|]. rewrite !strip_scan_step.
    simpl List.length in Hn, Hm.
    destruct (word_boundary prev (c :: r)).
    + destruct (match_alternatives fillers (c :: r)) as [rest|] eqn:Hma.
      * destruct (match_alternatives_spec _ _ _ fillers_lowercase Hma)
          as (w & Hs & Hne & _ & _).
        apply (f_equal (@List.length _)) in Hs. rewrite length_app in Hs.
        simpl in Hs. destruct w; [contradiction|]. simpl in Hs.
        apply IH; lia.
      * f_equal. apply IH; lia.
    + f_equal. apply IH; lia.
Qed.

Lemma strip_fillers_deletes (s : jsstring) :
  deletes_only is_letter (strip_fillers s) s.
Proof. apply strip_scan_deletes. Qed.

Lemma trimStart_length (s : jsstring) :
  (List.length (trimStart s) <= List.length s)%nat.
Proof.
  induction s as [|c r IH]; [apply le_n|].
  simpl. destruct (is_ws c); simpl; lia.
Qed.

Lemma trimEnd_fold_length (s : jsstring) :
  (List.length (trimEnd_fold s) <= List.length s)%nat.
Proof.
  induction s as [|c r IH]; [apply le_n|].
  simpl. destruct (trimEnd_fold r); [destruct (is_ws c)|]; simpl in *; lia.
Qed.

Lemma trim_length (s : jsstring) : (List.length (trim s) <= List.length s)%nat.
Proof.
  unfold trim. rewrite trimEnd_is_fold.
  pose proof (trimEnd_fold_length (trimStart s)).
  pose proof (trimStart_length s). lia.
Qed.

Lemma trimStart_nil_iff (s : jsstring) : trimStart s = [] <-> forallb is_ws s = true.
Proof.
  induction s as [|c r IH]; [split; reflexivity|].
  simpl. destruct (is_ws c); [exact IH | split; discriminate].
Qed.

Lemma trimEnd_fold_nil_iff (s : jsstring) :
  trimEnd_fold s = [] <-> forallb is_ws s = true.
Proof.
  induction s as [|c r IH]; [split; reflexivity|].
  simpl. destruct (trimEnd_fold r) as [|a t].
  - destruct (is_ws c); simpl.
    + split; [intros _; apply IH; reflexivity | reflexivity].
    + split; discriminate.
  - split; [discriminate|]. intro H. apply andb_true_iff in H.
    destruct H as [_ H]. apply IH in H. discriminate.
Qed.

Lemma trimStart_all_ws_suffix (s : jsstring) :
  forallb is_ws (trimStart s) = true -> forallb is_ws s = true.
Proof.
  induction s as [|c r IH]; [reflexivity|].
  simpl. destruct (is_ws c) eqn:Hc; [exact IH|].
  simpl. rewrite Hc. discriminate.
Qed.

Lemma trim_nil_iff (s : jsstring) : trim s = [] <-> forallb is_ws s = true.
Proof.
  unfold trim. rewrite trimEnd_is_fold, trimEnd_fold_nil_iff. split.
  - apply trimStart_all_ws_suffix.
  - intro H. apply trimStart_nil_iff in H. rewrite H. reflexivity.
Qed.




Lemma targetLen_eq (n : nat) : targetLen n = Nat.max 10 (3 * n / 4).
Proof.
  unfold targetLen. f_equal.
  unfold Qfloor, Qmult, inject_Z. simpl Qnum. simpl Qden.
  change (Z.pos (1 * 100)) with (4 * 25)%Z.
  replace (Z.of_nat n * 75)%Z with (Z.of_nat (3 * n) * 25)%Z by lia.
  rewrite Z.div_mul_cancel_r by lia.
  change 4%Z with (Z.of_nat 4). rewrite <- Nat2Z.inj_div. apply Nat2Z.id.
Qed.

Lemma optimize_text_cases (input : jsstring) :
  let stripped := normalize (strip_fillers input) in
  let n := List.length stripped in
  ((n <= 10)%nat /\ optimize_text input = stripped)
  \/ ((10 < n)%nat
      /\ optimize_text input = trim (firstn (Nat.max 10 (3 * n / 4)) stripped)
      /\ (Nat.max 10 (3 * n / 4) < n)%nat).
Proof.
  intros stripped n. unfold optimize_text.
  change (trim (replace_ws (strip_fillers input))) with stripped.
  fold n. rewrite targetLen_eq.
  assert (H34 : (3 * n / 4 <= n)%nat) by (apply Nat.Div0.div_le_upper_bound; lia).
  assert (H34' : (10 < n -> 3 * n / 4 < n)%nat).
  { intro H. apply Nat.Div0.div_lt_upper_bound. lia. }
  destruct (Nat.ltb_spec (Nat.max 10 (3 * n / 4)) n) as [Hlt | Hge].
  - right. split; [lia|]. split; [reflexivity | exact Hlt].
  - left. split; [|reflexivity].
    destruct (Nat.le_gt_cases n 10) as [H | H]; [exact H|].
    specialize (H34' H). lia.
Qed.

Lemma optimize_text_length (input : jsstring) :
  (List.length (optimize_text input)
   <= List.length (normalize (strip_fillers input)))%nat.
Proof.
  destruct (optimize_text_cases input) as [[_ ->] | (_ & -> & _)]; [apply le_n|].
  eapply Nat.le_trans; [apply trim_length|].
  rewrite length_firstn. apply Nat.le_min_r.
Qed.

Lemma strip_fillers_normal_length (input : jsstring) :
  (List.length (normalize (strip_fillers input)) <= List.length (normalize input))%nat.
Proof.
  pose proof (strip_fillers_deletes input) as Hdel.
  pose proof (deletes_only_nonspace is_letter _ _ is_letter_not_ws Hdel) as Hns.
  destruct (deletes_nonspace_fold _ _ Hns) as [Hlen _].
  rewrite <- !normalize_fold in Hlen. exact Hlen.
Qed.

Lemma optimize_text_estimate_le (input : jsstring) :
  (estimateTokens (optimize_text input) <= estimateTokens input)%Z.
Proof.
  rewrite !estimateTokens_length. apply tokens_of_length_mono.
  pose proof (normalize_length_le (optimize_text input)).
  pose proof (optimize_text_length input).
  pose proof (strip_fillers_normal_length input). lia.
Qed.

(** X15: the text the client suggests never has a larger estimate than the
    prompt, so the clamp in tokensSaved = max(0, tb - ta) never acts; the
    suggestion is never longer than the prompt. *)
Theorem optimizer_never_adds_tokens (input : jsstring) :
  let tb := estimateTokens input in
  let ta := estimateTokens (optimize_text input) in
  (ta <= tb)%Z
  /\ Z.max 0 (tb - ta) = (tb - ta)%Z
  /\ (List.length (optimize_text input) <= List.length (normalize input))%nat
  /\ (List.length (optimize_text input) <= List.length input)%nat.
Proof.
  intros tb ta.
  assert (Hta : (ta <= tb)%Z).
  { subst ta tb. rewrite !estimateTokens_length.
    apply tokens_of_length_mono.
    pose proof (normalize_length_le (optimize_text input)).
    pose proof (optimize_text_length input).
    pose proof (strip_fillers_normal_length input). lia. }
  split; [exact Hta|]. split; [lia|].
  pose proof (optimize_text_length input) as Hopt.
  pose proof (strip_fillers_normal_length input) as Hlen.
  split; [lia|].
  pose proof (normalize_length_le input). lia.
Qed.

Section ClientAndServer.

Context {P : Platform}.

(** X16: whatever the client posts to /api/optimize, the server accepts: the
    body carries the prompt as typed, the suggestion, and two counts with
    tokens_after < tokens_before, so the record stored has both counts
    natural, tokens_saved = tokens_before - tokens_after >= 1, and the
    answer repeats the figures the tab shows (the CO2 figure when client and
    server are configured with the same grid intensity). *)
Theorem client_posts_only_savings (CE E : env) (session : option jsstring)
    (st st' : tab_state) (input : jsstring) (req : request) (d : database) :
  handleSend CE session st input = (st', Some req) ->
  (tokensAfter st' < tokensBefore st')%Z
  /\ tokensBefore st' = estimateTokens input
  /\ tokensAfter st' = estimateTokens (optimize_text input)
  /\ exists row o,
       new_rows d (fst (optimize E d req)) = [row]
       /\ snd (optimize E d req) = reply 200 (OptimizeJson o)
       /\ o_prompt row = input
       /\ o_optimized_prompt row = optimize_text input
       /\ o_tokens_before row = inject_Z (tokensBefore st')
       /\ o_tokens_after row = inject_Z (tokensAfter st')
       /\ counts_natural row
       /\ o_tokens_saved row == inject_Z (tokensBefore st' - tokensAfter st')
       /\ 1 <= o_tokens_saved row
       /\ r_tokens_saved o = o_tokens_saved row
       /\ (parsed_GRID CE = parsed_GRID E -> r_co2_saved_kg o == co2SavedKg st').
Proof.
  unfold handleSend.
  destruct (falsy_str (trim input)) eqn:Hblank; [discriminate|].
  pose proof (optimize_text_estimate_le input) as Hle.
  assert (Hmax : Z.max 0 (estimateTokens input - estimateTokens (optimize_text input))
                 = (estimateTokens input - estimateTokens (optimize_text input))%Z)
    by lia.
  destruct (Z.eqb_spec (estimateTokens input) (estimateTokens (optimize_text input)))
    as [Heq | Hneq]; [discriminate|].
  intro H. injection H as <- <-. simpl.
  assert (Hlt : (estimateTokens (optimize_text input) < estimateTokens input)%Z) by lia.
  split; [exact Hlt|]. split; [reflexivity|]. split; [reflexivity|].
  assert (Hp : falsy_opt (Some input) = false).
  { destruct input; [discriminate | reflexivity]. }
  match goal with
  | |- context [optimize E d ?r] => rewrite (optimize_accepts E d r Hp)
  end.
  unfold new_rows. simpl. rewrite skipn_length_app.
  eexists. eexists. split; [reflexivity|]. split; [reflexivity|]. simpl.
  unfold tokens_before_of, tokens_after_of. simpl.
  split; [reflexivity|]. split; [reflexivity|].
  split; [reflexivity|]. split; [reflexivity|].
  pose proof (estimateTokens_nonneg input) as Hb0.
  pose proof (estimateTokens_nonneg (optimize_text input)) as Ha0.
  assert (Hsaved : Qmax 0 (inject_Z (estimateTokens input)
                           - inject_Z (estimateTokens (optimize_text input)))
                   == inject_Z (estimateTokens input
                                - estimateTokens (optimize_text input))).
  { unfold Z.sub. rewrite inject_Z_plus, inject_Z_opp.
    apply Qmax_0_of_nonneg.
    assert (inject_Z (estimateTokens (optimize_text input))
            <= inject_Z (estimateTokens input)) by (rewrite <- Zle_Qle; lia).
    lra. }
  split.
  { split; [exists (Z.to_nat (estimateTokens input))
           | exists (Z.to_nat (estimateTokens (optimize_text input)))];
      simpl; rewrite Z2Nat.id by assumption; reflexivity. }
  split; [exact Hsaved|].
  split.
  { rewrite Hsaved. change 1 with (inject_Z 1). rewrite <- Zle_Qle. lia. }
  split; [reflexivity|].
  intro Hg. unfold GRID_KGCO2_PER_KWH. rewrite Hg, Hsaved, Hmax.
  reflexivity.
Qed.

End ClientAndServer.

(** X17: a prompt that is empty or all white space is ignored: nothing is
    posted and the state stays as it is.  For a prompt whose suggestion has
    the same estimate nothing is posted either, the chat gets the prompt and
    the note, and tokensBefore becomes the (positive) estimate while
    tokensAfter and co2SavedKg keep the values of the prompt before, so the
    panel is shown with figures that do not belong together. *)
Theorem handleSend_without_post (CE : env) (session : option jsstring)
    (st : tab_state) (input : jsstring) :
  (forallb is_ws input = true -> handleSend CE session st input = (st, None))
  /\ (forallb is_ws input = false ->
      estimateTokens (optimize_text input) = estimateTokens input ->
      let st' := fst (handleSend CE session st input) in
      snd (handleSend CE session st input) = None
      /\ messages st' = messages st ++ [FromUser input; AlreadyOptimalNote]
      /\ tokensBefore st' = estimateTokens input
      /\ (1 <= tokensBefore st')%Z
      /\ tokensAfter st' = tokensAfter st
      /\ co2SavedKg st' = co2SavedKg st
      /\ panel_shown st' = true)
  /\ (snd (handleSend CE session st input) = None ->
      forallb is_ws input = true
      \/ estimateTokens (optimize_text input) = estimateTokens input).
Proof.
  unfold handleSend. split; [|split].
  - intro Hb. apply trim_nil_iff in Hb. rewrite Hb. reflexivity.
  - intros Hb Heq.
    destruct (trim input) as [|c t] eqn:Ht.
    { assert (forallb is_ws input = true) by (apply trim_nil_iff; exact Ht).
      congruence. }
    simpl falsy_str. cbv iota. cbv zeta. rewrite Heq, Z.eqb_refl. simpl.
    pose proof (estimateTokens_positive input Hb) as H1.
    repeat split; try assumption.
    unfold panel_shown. simpl.
    destruct (Z.ltb_spec 0 (estimateTokens input)); [reflexivity | lia].
  - destruct (trim input) as [|c t] eqn:Ht.
    { intros _. left. apply trim_nil_iff. exact Ht. }
    simpl falsy_str. cbv iota. cbv zeta.
    destruct (Z.eqb_spec (estimateTokens input) (estimateTokens (optimize_text input)))
      as [Heq | Hneq]; [intros _; right; symmetry; exact Heq | discriminate].
Qed.


(** X19: removing the filler words only deletes ASCII letters: every other
    unit of the prompt (digits, punctuation, white space) stays, in order,
    the result is never longer, and the scan ends within as many steps as
    the prompt has units. *)
Theorem strip_fillers_only_deletes_letters (input : jsstring) :
  deletes_only is_letter (strip_fillers input) input
  /\ filter (fun c => negb (is_letter c)) (strip_fillers input)
     = filter (fun c => negb (is_letter c)) input
  /\ filter is_ws (strip_fillers input) = filter is_ws input
  /\ (List.length (strip_fillers input) <= List.length input)%nat
  /\ (forall fuel prev,
        (List.length input <= fuel)%nat ->
        strip_scan fuel prev input = strip_scan (List.length input) prev input).
Proof.
  pose proof (strip_fillers_deletes input) as H.
  split; [exact H|]. split.
  { apply (deletes_only_filter is_letter); [|exact H].
    intros c Hc. rewrite Hc. reflexivity. }
  split.
  { apply (deletes_only_filter is_letter); [|exact H]. apply is_letter_not_ws. }
  split.
  { apply deletes_nonspace_length.
    exact (deletes_only_nonspace is_letter _ _ is_letter_not_ws H). }
  intros fuel prev Hf. apply strip_scan_fuel; [exact Hf | apply le_n].
Qed.

(** * The client against the answers of the server *)

(** X20: the stats answer of the server has no tokens_saved and no
    miles_saved field.  The stats tab replaces its state by the answer and
    then calls toLocaleString and toFixed on those two fields, so its cells
    render on the initial state and throw after every load that succeeded; a
    failed load leaves the state as it was. *)
Theorem StatsTab_breaks_after_load (E : env) (d : database) (req : request)
    (state : js_object) :
  let res := snd (stats E d req) in
  response_ok res = true
  /\ get_field "tokens_saved" (StatsTab_load state res) = None
  /\ get_field "miles_saved" (StatsTab_load state res) = None
  /\ StatsTab_cells_render (StatsTab_load state res) = false
  /\ StatsTab_cells_render StatsTab_initial = true
  /\ (forall failed, response_ok failed = false -> StatsTab_load state failed = state).
Proof.
  simpl. repeat split.
  intros failed H. unfold StatsTab_load. rewrite H. reflexivity.
Qed.

Section ClientSession.

Context {P : Platform}.

(** X21: the provider publishes the session under the key user, the
    navigation bar reads currentUser: whatever the session is, and also right
    after a login the server answered 200, the bar shows the login and signup
    links, never the account with its logout button. *)
Theorem Navbar_never_shows_account (user : option field_value) (loading : bool)
    (d : database) (req : request) :
  Navbar (AuthContext_value user loading) = LoginAndSignupLinks
  /\ (status (snd (login d req)) = 200%Z ->
      exists id email,
        AuthProvider_login user (snd (login d req))
        = Some (FObject [("id", FNumber (inject_Z id)); ("email", FString email)]%string)
        /\ AuthProvider_check (snd (login d req))
           = AuthProvider_login user (snd (login d req))
        /\ Navbar (AuthContext_value
                     (AuthProvider_login user (snd (login d req))) loading)
           = LoginAndSignupLinks).
Proof.
  split; [reflexivity|].
  destruct (login_cases d req)
    as [[_ ->] | [(_ & _ & ->) | [(_ & row & _ & _ & ->)
                                 | (_ & row & _ & _ & ->)]]]; simpl;
    try discriminate.
  intros _. exists (u_id row), (u_email row). repeat split.
Qed.

End ClientSession.

(** * The further properties on concrete stores and prompts *)

Example strip_fillers_examples :
  strip_fillers (lit "The theme. AND an,a that's Just") = lit " theme.  , 's "
  /\ strip_fillers (lit "a_b a1 the-and") = lit "a_b a1 -"
  /\ optimize_text (lit "the quick brown fox and a turtle") = lit "quick brown fox"
  /\ optimize_text (lit "hello world") = lit "hello worl".
Proof. repeat split; vm_compute; reflexivity. Qed.

Lemma store_one_user_reachable :
  reachable (P := toy_platform) default_env any_request store_one_user.
Proof.
  unfold store_one_user. apply reachable_step; [apply reachable_init | exact I].
Qed.

Lemma store_with_session_reachable :
  reachable (P := toy_platform) default_env any_request store_with_session.
Proof.
  unfold store_with_session. apply run_reachable. apply reachable_init.
Qed.

Lemma rowids_consecutive_witness :
  reachable (P := toy_platform) default_env any_request store_with_session
  /\ map u_id (users store_with_session)
     = map Z.of_nat (seq 1 (List.length (users store_with_session))).
Proof.
  split; [exact store_with_session_reachable|].
  exact (proj1 (@rowids_consecutive toy_platform default_env any_request
                  store_with_session store_with_session_reachable)).
Defined.

Lemma registered_emails_distinct_witness :
  reachable (P := toy_platform) default_env any_request store_one_user
  /\ NoDup (map u_email (users store_one_user)).
Proof.
  split; [exact store_one_user_reachable|].
  exact (proj1 (@registered_emails_distinct toy_platform default_env any_request
                  store_one_user store_one_user_reachable)).
Defined.

Lemma stored_user_ids_resolve_witness :
  reachable (P := toy_platform) default_env any_request store_with_session
  /\ map o_user_id (optimizations store_with_session) = [Some 1%Z]
  /\ exists u, In u (users store_with_session) /\ u_id u = 1%Z.
Proof.
  split; [exact store_with_session_reachable|]. split; [reflexivity|].
  refine (@stored_user_ids_resolve toy_platform default_env any_request
            store_with_session store_with_session_reachable
            (hd (Build_optimization_row 0 None [] [] 0 0 0 0)
                (optimizations store_with_session)) 1%Z _ _).
  - left. reflexivity.
  - reflexivity.
Defined.



Lemma stats_energy_never_negative_witness :
  reachable (P := toy_platform) negative_grid any_request store_negative_grid
  /\ 0 <= st_energy_saved_kwh
            (snapshot (GRID_KGCO2_PER_KWH negative_grid) store_negative_grid)
  /\ st_co2_saved_kg (snapshot (GRID_KGCO2_PER_KWH negative_grid) store_negative_grid)
     <= 0.
Proof.
  assert (Hr : reachable (P := toy_platform) negative_grid any_request
                 store_negative_grid).
  { unfold store_negative_grid. apply reachable_step; [apply reachable_init | exact I]. }
  assert (Hg : GRID_KGCO2_PER_KWH negative_grid < 0) by reflexivity.
  split; [exact Hr|].
  destruct (@stats_energy_never_negative toy_platform negative_grid any_request
              store_negative_grid Hr) as (H0 & _ & Hneg).
  split; [exact H0 | exact (Hneg Hg)].
Defined.

Lemma derived_tokens_after_bounds_witness :
  falsy_opt (body_prompt prompt_only) = false
  /\ typeof_number (body_tokens_before prompt_only) = false
  /\ typeof_number (body_tokens_after prompt_only) = false
  /\ exists row,
       new_rows empty_db (fst (optimize (P := toy_platform) default_env empty_db
                                 prompt_only)) = [row]
       /\ 0 <= o_tokens_after row
       /\ (8 # 10) * o_tokens_before row <= o_tokens_after row.
Proof.
  split; [reflexivity|]. split; [reflexivity|]. split; [reflexivity|].
  destruct (@derived_tokens_after_bounds toy_platform default_env empty_db
              prompt_only eq_refl eq_refl eq_refl) as (row & Hr & _ & _ & H0 & _ & Hd).
  exists row. split; [exact Hr|]. split; [exact H0|].
  exact (proj1 (Hd eq_refl)).
Defined.

Lemma estimate_monotone_under_deletion_witness :
  deletes_nonspace (lit "a c") (lit "ab cd")
  /\ (estimateTokens (lit "a c") <= estimateTokens (lit "ab cd"))%Z.
Proof.
  assert (H : deletes_nonspace (lit "a c") (lit "ab cd")).
  { simpl. apply dn_keep. apply dn_drop; [reflexivity|]. apply dn_keep.
    apply dn_keep. apply dn_drop; [reflexivity|]. apply dn_nil. }
  split; [exact H|].
  exact (proj1 (proj2 (estimate_monotone_under_deletion _ _ H))).
Defined.

Lemma client_posts_only_savings_witness :
  example_send = (fst example_send, Some example_posted)
  /\ (tokensAfter (fst example_send) < tokensBefore (fst example_send))%Z.
Proof.
  assert (H : example_send = (fst example_send, Some example_posted))
    by (vm_compute; reflexivity).
  split; [exact H|].
  exact (proj1 (@client_posts_only_savings toy_platform default_env default_env None
                  initial_tab (fst example_send)
                  (lit "please just tell me the answer and that is all")
                  example_posted empty_db H)).
Defined.

Section ClientCounts.

Context {P : Platform}.

(** X22: the counts the client posts are the ones the server would estimate
    itself: for a body posted by the tab whose suggestion is not empty, the
    server stores and answers the same with and without the two count
    fields.  (With an empty suggestion the server without counts falls back
    to its default of four fifths.) *)
Theorem client_counts_match_server (CE E : env) (session : option jsstring)
    (st st' : tab_state) (input : jsstring) (req : request) (d : database) :
  handleSend CE session st input = (st', Some req) ->
  optimize_text input <> [] ->
  optimize E d (without_counts req) = optimize E d req.
Proof.
  unfold handleSend.
  destruct (falsy_str (trim input)) eqn:Hblank; [discriminate|].
  destruct (Z.eqb (estimateTokens input) (estimateTokens (optimize_text input)));
    [discriminate|].
  intros H Hne. injection H as _ <-.
  assert (Hp : falsy_opt (Some input) = false).
  { destruct input; [discriminate | reflexivity]. }
  match goal with
  | |- optimize E d (without_counts ?r) = _ =>
      rewrite (optimize_accepts E d r Hp),
              (optimize_accepts E d (without_counts r) Hp)
  end.
  unfold tokens_before_of, tokens_after_of, getUserFromToken. simpl.
  destruct (optimize_text input) as [|c t]; [contradiction|]. reflexivity.
Qed.

End ClientCounts.

Lemma client_counts_match_server_witness :
  example_send = (fst example_send, Some example_posted)
  /\ optimize_text (lit "please just tell me the answer and that is all") <> []
  /\ optimize (P := toy_platform) default_env empty_db (without_counts example_posted)
     = optimize (P := toy_platform) default_env empty_db example_posted.
Proof.
  assert (H : example_send = (fst example_send, Some example_posted))
    by (vm_compute; reflexivity).
  assert (Hne : optimize_text (lit "please just tell me the answer and that is all")
                <> []) by (vm_compute; discriminate).
  split; [exact H|]. split; [exact Hne|].
  exact (@client_counts_match_server toy_platform default_env default_env None
           initial_tab (fst example_send)
           (lit "please just tell me the answer and that is all")
           example_posted empty_db H Hne).
Defined.
